(** * Beer tracker: a shallow embedding of [frontroomsbot/cogs/beer_tracker.py]

    The cog keeps one MongoDB document per user in the collection
    [db.beer_tracker] and answers six slash commands over it.  The
    collection is modelled as the list of its documents in scan order,
    the handlers as programs of a small state monad whose state is the
    collection together with the trace of the store calls made so far. *)

From Stdlib Require Import ZArith List Ascii String DecimalString Bool Lia
  Permutation Sorted.
Import ListNotations.
Local Open Scope Z_scope.

(** ** Python values *)

(** What the key ["type"] of a stored entry, or the [drink_type] argument
    of [/beer], can hold: [None] or a string. *)
Inductive pyval : Type :=
| PyNone
| PyStr (s : string).

(** [v == "lit"] for a string literal. *)
Definition py_eq_str (v : pyval) (lit : string) : bool :=
  match v with
  | PyStr s => String.eqb s lit
  | PyNone => false
  end.

(** [d.get(key, default)], the key's slot being [None] when the key is
    missing from the dict. *)
Definition dict_get {A : Type} (slot : option A) (default : A) : A :=
  match slot with
  | Some v => v
  | None => default
  end.

(** [len(l)] as a Python integer. *)
Definition len {A : Type} (l : list A) : Z := Z.of_nat (List.length l).

(** [l[start:stop]] for integer bounds, negative ones counting from the
    end. *)
Definition py_index_clamp (n i : Z) : Z :=
  if i <? 0 then Z.max (i + n) 0 else Z.min i n.

Definition py_slice {A : Type} (l : list A) (start stop : Z) : list A :=
  let s := py_index_clamp (len l) start in
  let e := py_index_clamp (len l) stop in
  firstn (Z.to_nat (e - s)) (skipn (Z.to_nat s) l).

(** [l[:stop]] *)
Definition py_slice_to {A : Type} (l : list A) (stop : Z) : list A :=
  py_slice l 0 stop.

(** [l[-1]]; [None] stands for the [IndexError] of an empty list. *)
Definition py_last {A : Type} (l : list A) : option A :=
  match rev l with
  | [] => None
  | x :: _ => Some x
  end.

(** ** Sorting

    [sorted(l, key=..., reverse=True)] and [list.sort(key=..., reverse=True)]
    are CPython's stable sort run as the interpreter runs it with
    [reverse=True]: the list is reversed, sorted ascending by key with a
    stable sort, and reversed again. *)
Section PySort.
Context {A : Type} (key : A -> Z).

(** [x] goes in front of the first element whose key is not smaller. *)
Fixpoint insert_asc (x : A) (l : list A) : list A :=
  match l with
  | [] => [x]
  | y :: l' => if key y <? key x then y :: insert_asc x l' else x :: l
  end.

(** Insertion sort, ascending by key.  The head of the input is
    inserted last and lands in front of the equal keys of the tail, so
    equal keys keep their input order. *)
Fixpoint stable_sort_asc (l : list A) : list A :=
  match l with
  | [] => []
  | x :: l' => insert_asc x (stable_sort_asc l')
  end.

Definition sorted_reverse (l : list A) : list A :=
  rev (stable_sort_asc (rev l)).
End PySort.

(** ** Data model *)

(** One entry of a document's ["beers"] list.  [timestamp] is the stored
    instant in microseconds since the epoch; the key ["type"] is missing
    from entries written before drink types existed. *)
Record beer : Type := mk_beer {
  b_id : string;
  b_timestamp : Z;
  b_type : option pyval
}.

(** One document of [db.beer_tracker].  [log_beer] creates it with both
    counters; every reader but one goes through [.get(..., 0)], so the
    two counters are optional keys. *)
Record user_doc : Type := mk_user_doc {
  user_id : Z;
  username : string;
  beers : list beer;
  total_beers : option Z;
  total_ciders : option Z
}.

(** A [discord.User], as far as the cog looks at it. *)
Record discord_user : Type := mk_discord_user {
  u_id : Z;
  u_name : string
}.

(** [b.get("type", "beer") == "beer"] *)
Definition is_beer (b : beer) : bool :=
  py_eq_str (dict_get (b_type b) (PyStr "beer"%string)) "beer"%string.

(** [b.get("type") == "cider"] *)
Definition is_cider (b : beer) : bool :=
  py_eq_str (dict_get (b_type b) PyNone) "cider"%string.

(** The [drink_type] choice of the query commands,
    [Literal["beer", "cider", "all"]]. *)
Inductive drink_filter : Type := FilterAll | FilterBeer | FilterCider.

(** The [period] choice, [Literal["day", "week", "month", "year"]]. *)
Inductive period_lit : Type := Day | Week | Month | Year.

(** The type filter the query commands share:
    [drink_type == "all"] keeps the list, ["beer"] and ["cider"] keep the
    entries of that type. *)
Definition filter_drink_type (drink_type : drink_filter) (bs : list beer)
  : list beer :=
  match drink_type with
  | FilterAll => bs
  | FilterBeer => filter is_beer bs
  | FilterCider => filter is_cider bs
  end.

(** ** The store *)

Inductive db_call : Type :=
| CallFindOneUser (uid : Z)
| CallFindOneBeer (beer_uuid : string)
| CallFindAll
| CallReplaceOne (uid : Z)
| CallUpdateOne (uid : Z).

Record db : Type := mk_db {
  coll : list user_doc;
  calls : list db_call
}.

Definition DB (A : Type) : Type := db -> A * db.

Definition ret {A : Type} (a : A) : DB A := fun s => (a, s).

Definition bind {A B : Type} (m : DB A) (k : A -> DB B) : DB B :=
  fun s => let (a, s') := m s in k a s'.

Notation "x <- m ;; k" := (bind m (fun x => k))
  (at level 61, m at next level, right associativity).
Notation "m ;;; k" := (bind m (fun _ => k))
  (at level 61, right associativity).

Definition has_beer (beer_uuid : string) (d : user_doc) : bool :=
  existsb (fun b => String.eqb (b_id b) beer_uuid) (beers d).

(** [replace_one({"user_id": uid}, doc, upsert=True)] on the documents:
    the first match is replaced, a collection without a match gets the
    document appended. *)
Fixpoint replace_first (uid : Z) (doc : user_doc) (c : list user_doc)
  : list user_doc :=
  match c with
  | [] => [doc]
  | d :: c' => if user_id d =? uid then doc :: c'
               else d :: replace_first uid doc c'
  end.

(** [update_one({"user_id": uid}, {"$set": {beers, total_beers,
    total_ciders}})] on the documents: the first match gets the three
    keys, a collection without a match is left as it is. *)
Fixpoint set_first (uid : Z) (bs : list beer) (tb tc : Z)
  (c : list user_doc) : list user_doc :=
  match c with
  | [] => []
  | d :: c' =>
      if user_id d =? uid
      then mk_user_doc (user_id d) (username d) bs (Some tb) (Some tc) :: c'
      else d :: set_first uid bs tb tc c'
  end.

Definition called (c : db_call) (s : db) : db :=
  mk_db (coll s) (calls s ++ [c]).

(** [db.beer_tracker.find_one({"user_id": uid})] *)
Definition find_one_user (uid : Z) : DB (option user_doc) :=
  fun s => (find (fun d => user_id d =? uid) (coll s),
            called (CallFindOneUser uid) s).

(** [db.beer_tracker.find_one({"beers.id": beer_uuid})] *)
Definition find_one_beer (beer_uuid : string) : DB (option user_doc) :=
  fun s => (find (has_beer beer_uuid) (coll s),
            called (CallFindOneBeer beer_uuid) s).

(** [db.beer_tracker.find().to_list(None)] *)
Definition find_all : DB (list user_doc) :=
  fun s => (coll s, called CallFindAll s).

Definition replace_one (uid : Z) (doc : user_doc) : DB unit :=
  fun s => (tt, mk_db (replace_first uid doc (coll s))
                      (calls s ++ [CallReplaceOne uid])).

Definition update_one (uid : Z) (bs : list beer) (tb tc : Z) : DB unit :=
  fun s => (tt, mk_db (set_first uid bs tb tc (coll s))
                      (calls s ++ [CallUpdateOne uid])).

(** ** Time

    A stored timestamp is an instant, in microseconds since the epoch; a
    naive one is read as UTC by [ts_to_prague_time].  A [datetime] in
    [prague_tz] is the number of microseconds on the clock face it shows,
    counted from 1970-01-01 00:00 on that clock.  Two aware datetimes
    that carry the same [tzinfo] object, here always [prague_tz], are
    compared by their clock faces, and [dt - timedelta] moves the clock
    face; this is all the arithmetic the period filters do. *)

Definition day_us : Z := 86400000000.

(** [timedelta(days=n)] *)
Definition timedelta_days (n : Z) : Z := n * day_us.

(** [timedelta(weeks=n)] *)
Definition timedelta_weeks (n : Z) : Z := timedelta_days (7 * n).

(** [dt.replace(hour=0, minute=0, second=0, microsecond=0)] *)
Definition replace_midnight (dt : Z) : Z := dt - dt mod day_us.

(** A zone for the examples: Central European Time all year round. *)
Definition cet (_ : Z) : Z := 3600000000.

(** A reader of UUID literals for the examples: the 36-character form
    [str(uuid.uuid4())] prints, hexadecimal digits in groups of 8, 4, 4, 4
    and 12 joined by hyphens. *)
Definition is_hex (c : Ascii.ascii) : bool :=
  let n := Ascii.nat_of_ascii c in
  ((48 <=? n) && (n <=? 57) || (65 <=? n) && (n <=? 70)
   || (97 <=? n) && (n <=? 102))%nat.

Fixpoint canonical_from (pos : nat) (s : string) : bool :=
  match s with
  | EmptyString => (pos =? 36)%nat
  | String c s' =>
      (if ((pos =? 8) || (pos =? 13) || (pos =? 18) || (pos =? 23))%nat
       then Ascii.eqb c "-"%char else is_hex c)
      && canonical_from (S pos) s'
  end.

Definition canonical_uuid (s : string) : bool := canonical_from 0 s.

(** ** Replies of the handlers: what each message is built from *)

Inductive log_reply : Type :=
| SaidBeers (total : Z)
| SaidCiders (total : Z)
| LogKeyError.

Inductive my_beers_reply : Type :=
| NoBeersYet
| PageDoesNotExist (page total_pages : Z)
| BeerPage (paginated_beers : list beer) (page total_pages total_beers : Z).

Inductive delete_reply : Type :=
| InvalidUUID
| NoBeerFound
| NotYourBeer
| Deleted (deleted_beer : beer).

Inductive stats_reply : Type :=
| NoStats
| Stats (count : Z).

(** A row of the leaderboard: the tuple [(username, total_count, user_id,
    total_beers, total_ciders)]. *)
Record row : Type := mk_row {
  r_username : string;
  r_count : Z;
  r_user_id : Z;
  r_total_beers : Z;
  r_total_ciders : Z
}.

Inductive leaderboard_reply : Type :=
| NoBeersLogged
| NoBeersInPeriod
| Board (leaderboard : list row)
| BoardKeyError.

Inductive last_reply : Type :=
| NoLast
| LastIndexError
| LastBeer (last_beer : beer) (last_time : Z).

(** ** The cog *)

Section Cog.

(** [uuid.UUID(s)] returns (rather than raising [ValueError]). *)
Variable uuid_parses : string -> bool.

(** The UTC offset of [prague_tz] at an instant, in microseconds. *)
Variable utcoffset : Z -> Z.

(** The stored instant, naive or aware, shown on a Prague clock. *)
Definition ts_to_prague_time (ts : Z) : Z := ts + utcoffset ts.

(** [datetime.now(prague_tz)] when the clock stands at instant
    [clock]. *)
Definition now_prague (clock : Z) : Z := clock + utcoffset clock.

(** [user or interaction.user] *)
Definition target_of (interaction_user : discord_user)
  (user : option discord_user) : discord_user :=
  match user with
  | Some u => u
  | None => interaction_user
  end.

(** [/beer].  [beer_id] is the drawn [uuid.uuid4()], [current_time] the
    reading of [datetime.now()] as the store keeps it. *)
Definition log_beer (interaction_user : discord_user)
  (user : option discord_user) (drink_type : pyval)
  (beer_id : string) (current_time : Z) : DB log_reply :=
  let target_user := target_of interaction_user user in
  found <- find_one_user (u_id target_user) ;;
  let user_data :=
    match found with
    | Some d => d
    | None => mk_user_doc (u_id target_user) (u_name target_user) []
                          (Some 0) (Some 0)
    end in
  let appended :=
    beers user_data ++ [mk_beer beer_id current_time (Some drink_type)] in
  let tb :=
    if py_eq_str drink_type "beer"%string
    then Some (dict_get (total_beers user_data) 0 + 1)
    else total_beers user_data in
  let tc :=
    if py_eq_str drink_type "beer"%string then total_ciders user_data
    else if py_eq_str drink_type "cider"%string
    then Some (dict_get (total_ciders user_data) 0 + 1)
    else total_ciders user_data in
  let user_data :=
    mk_user_doc (user_id user_data) (u_name target_user) appended tb tc in
  replace_one (u_id target_user) user_data ;;;
  ret (if py_eq_str drink_type "beer"%string
       then match total_beers user_data with
            | Some n => SaidBeers n
            | None => LogKeyError
            end
       else if py_eq_str drink_type "cider"%string
       then match total_ciders user_data with
            | Some n => SaidCiders n
            | None => LogKeyError
            end
       else match total_beers user_data with
            | Some n => SaidBeers n
            | None => LogKeyError
            end).

(** [/my_beers].  [limit] is an [app_commands.Range[int, 1, 50]], so
    the divisor of [//] is positive. *)
Definition my_beers (interaction_user : discord_user)
  (limit page : Z) (drink_type : drink_filter) : DB my_beers_reply :=
  found <- find_one_user (u_id interaction_user) ;;
  match found with
  | None => ret NoBeersYet
  | Some user_data =>
      match beers user_data with
      | [] => ret NoBeersYet
      | _ :: _ =>
          let all_beers := filter_drink_type drink_type (beers user_data) in
          let all_beers := sorted_reverse b_timestamp all_beers in
          let total_beers := len all_beers in
          let total_pages := (total_beers + limit - 1) / limit in
          if page >? total_pages
          then ret (PageDoesNotExist page total_pages)
          else
            let start_idx := (page - 1) * limit in
            let end_idx := start_idx + limit in
            ret (BeerPage (py_slice all_beers start_idx end_idx)
                          page total_pages total_beers)
      end
  end.

(** [/beer_delete] *)
Definition beer_delete (interaction_user : discord_user)
  (beer_uuid : string) : DB delete_reply :=
  if negb (uuid_parses beer_uuid) then ret InvalidUUID
  else
    found <- find_one_beer beer_uuid ;;
    match found with
    | None => ret NoBeerFound
    | Some user_data =>
        if negb (user_id user_data =? u_id interaction_user)
        then ret NotYourBeer
        else
          let updated_beers :=
            filter (fun b => negb (String.eqb (b_id b) beer_uuid))
                   (beers user_data) in
          match find (fun b => String.eqb (b_id b) beer_uuid)
                     (beers user_data) with
          | None => ret NoBeerFound
          | Some deleted_beer =>
              let total_beers := len (filter is_beer updated_beers) in
              let total_ciders := len (filter is_cider updated_beers) in
              update_one (user_id user_data) updated_beers
                         total_beers total_ciders ;;;
              ret (Deleted deleted_beer)
          end
    end.

(** The cutoff of [/beer_stats], lines 279-286. *)
Definition stats_cutoff (period : period_lit) (now : Z) : Z :=
  match period with
  | Day => now - timedelta_days 1
  | Week => now - timedelta_weeks 1
  | Month => now - timedelta_days 30
  | Year => now - timedelta_days 365
  end.

(** The cutoff of [/beer_leaderboard], lines 346-354; its ["day"] is
    commented "cutoff is the start of today". *)
Definition leaderboard_cutoff (period : period_lit) (now : Z) : Z :=
  match period with
  | Day => replace_midnight now
  | Week => now - timedelta_weeks 1
  | Month => now - timedelta_days 30
  | Year => now - timedelta_days 365
  end.

(** [[b for b in beers if ts_to_prague_time(b["timestamp"]) >= cutoff]] *)
Definition since (cutoff : Z) (bs : list beer) : list beer :=
  filter (fun b => ts_to_prague_time (b_timestamp b) >=? cutoff) bs.

(** The count both commands take from the stored counters when no
    period is given. *)
Definition stored_count (drink_type : drink_filter) (user_data : user_doc)
  : Z :=
  match drink_type with
  | FilterAll => dict_get (total_beers user_data) 0
                 + dict_get (total_ciders user_data) 0
  | FilterBeer => dict_get (total_beers user_data) 0
  | FilterCider => dict_get (total_ciders user_data) 0
  end.

(** [/beer_stats], the clock standing at [clock]. *)
Definition beer_stats (interaction_user : discord_user)
  (user : option discord_user) (period : option period_lit)
  (drink_type : drink_filter) (clock : Z) : DB stats_reply :=
  let target_user := target_of interaction_user user in
  found <- find_one_user (u_id target_user) ;;
  match found with
  | None => ret NoStats
  | Some user_data =>
      match beers user_data with
      | [] => ret NoStats
      | _ :: _ =>
          let bs := filter_drink_type drink_type (beers user_data) in
          match period with
          | Some p =>
              let now := now_prague clock in
              let cutoff := stats_cutoff p now in
              let filtered_beers := since cutoff bs in
              ret (Stats (len filtered_beers))
          | None => ret (Stats (stored_count drink_type user_data))
          end
      end
  end.

(** [total_count] of one document in the loop of [/beer_leaderboard],
    lines 335-368. *)
Definition leaderboard_count (period : option period_lit)
  (drink_type : drink_filter) (clock : Z) (user_data : user_doc) : Z :=
  let bs := filter_drink_type drink_type (beers user_data) in
  match period with
  | Some p =>
      let now := now_prague clock in
      let cutoff := leaderboard_cutoff p now in
      len (since cutoff bs)
  | None => stored_count drink_type user_data
  end.

(** The loop of [/beer_leaderboard], lines 330-379.  [None] is the
    [KeyError] of [user_data["total_beers"]] or
    [user_data["total_ciders"]].  The source reads the clock anew for
    each document; the model reads it once for the whole command. *)
Fixpoint leaderboard_rows (period : option period_lit)
  (drink_type : drink_filter) (clock : Z) (all_users : list user_doc)
  : option (list row) :=
  match all_users with
  | [] => Some []
  | user_data :: rest =>
      match beers user_data with
      | [] => leaderboard_rows period drink_type clock rest
      | _ :: _ =>
          let total_count :=
            leaderboard_count period drink_type clock user_data in
          if total_count >? 0
          then
            match total_beers user_data, total_ciders user_data with
            | Some tb, Some tc =>
                option_map
                  (cons (mk_row (username user_data) total_count
                                (user_id user_data) tb tc))
                  (leaderboard_rows period drink_type clock rest)
            | _, _ => None
            end
          else leaderboard_rows period drink_type clock rest
      end
  end.

(** [/beer_leaderboard] *)
Definition beer_leaderboard (period : option period_lit) (limit : Z)
  (drink_type : drink_filter) (clock : Z) : DB leaderboard_reply :=
  all_users <- find_all ;;
  match all_users with
  | [] => ret NoBeersLogged
  | _ :: _ =>
      match leaderboard_rows period drink_type clock all_users with
      | None => ret BoardKeyError
      | Some leaderboard =>
          let leaderboard := sorted_reverse r_count leaderboard in
          let leaderboard := py_slice_to leaderboard limit in
          match leaderboard with
          | [] => ret NoBeersInPeriod
          | _ :: _ => ret (Board leaderboard)
          end
      end
  end.

(** [/beer_last], up to the choice of [last_beer] and its Prague
    time; the rest of the handler words the age of that time. *)
Definition beer_last (interaction_user : discord_user)
  (user : option discord_user) (drink_type : drink_filter)
  : DB last_reply :=
  let target_user := target_of interaction_user user in
  found <- find_one_user (u_id target_user) ;;
  match found with
  | None => ret NoLast
  | Some user_data =>
      match beers user_data with
      | [] => ret NoLast
      | _ :: _ =>
          match py_last (filter_drink_type drink_type (beers user_data)) with
          | None => ret LastIndexError
          | Some last_beer =>
              ret (LastBeer last_beer
                            (ts_to_prague_time (b_timestamp last_beer)))
          end
      end
  end.

(** ** Runs of the two writing commands *)

Inductive op : Type :=
| OpLog (interaction_user : discord_user) (user : option discord_user)
        (drink_type : pyval) (beer_id : string) (current_time : Z)
| OpDelete (interaction_user : discord_user) (beer_uuid : string).

Definition run_op (o : op) (s : db) : db :=
  match o with
  | OpLog iu user drink_type beer_id current_time =>
      snd (log_beer iu user drink_type beer_id current_time s)
  | OpDelete iu beer_uuid => snd (beer_delete iu beer_uuid s)
  end.

(** The stores a run goes through, one after each command. *)
Fixpoint states_after (ops : list op) (s : db) : list db :=
  match ops with
  | [] => []
  | o :: ops' => run_op o s :: states_after ops' (run_op o s)
  end.

(** [/beer] offers the choices ["beer"] and ["cider"]. *)
Definition logs_beer_or_cider (o : op) : Prop :=
  match o with
  | OpLog _ _ drink_type _ _ =>
      drink_type = PyStr "beer"%string \/ drink_type = PyStr "cider"%string
  | OpDelete _ _ => True
  end.

(** Both counters are there and count the entries of their type, and
    together they count the whole list. *)
Definition counters_match (d : user_doc) : Prop :=
  total_beers d = Some (len (filter is_beer (beers d)))
  /\ total_ciders d = Some (len (filter is_cider (beers d)))
  /\ len (filter is_beer (beers d)) + len (filter is_cider (beers d))
     = len (beers d).

Definition store_counters_match (s : db) : Prop :=
  Forall counters_match (coll s).

(** The data model's two keys: a user has one document, and the entries
    with a given id sit with one user. *)
Definition store_well_formed (s : db) : Prop :=
  NoDup (map user_id (coll s))
  /\ forall beer_uuid d1 d2,
       In d1 (coll s) -> In d2 (coll s) ->
       has_beer beer_uuid d1 = true -> has_beer beer_uuid d2 = true ->
       user_id d1 = user_id d2.

(** The id drawn by [/beer] is new to the store. *)
Definition draws_fresh_id (o : op) (s : db) : Prop :=
  match o with
  | OpLog _ _ _ beer_id _ =>
      forall d, In d (coll s) -> has_beer beer_id d = false
  | OpDelete _ _ => True
  end.

(** Every [/beer] of a run draws an id new to the store it meets. *)
Fixpoint draws_fresh_ids (ops : list op) (s : db) : Prop :=
  match ops with
  | [] => True
  | o :: ops' => draws_fresh_id o s /\ draws_fresh_ids ops' (run_op o s)
  end.

(** ** Vocabulary of the statements *)

(** The length of a period in the words of the specification: 24 hours,
    7 days, 30 days, 365 days. *)
Definition period_span (p : period_lit) : Z :=
  match p with
  | Day => 24 * 3600 * 1000000
  | Week => 7 * (24 * 3600 * 1000000)
  | Month => 30 * (24 * 3600 * 1000000)
  | Year => 365 * (24 * 3600 * 1000000)
  end.

(** The entries whose Prague time is not before [cutoff]. *)
Definition not_before (cutoff : Z) (b : beer) : bool :=
  cutoff <=? ts_to_prague_time (b_timestamp b).

(** The row a document gets on the board. *)
Definition row_of (period : option period_lit) (drink_type : drink_filter)
  (clock : Z) (d : user_doc) : row :=
  mk_row (username d) (leaderboard_count period drink_type clock d)
         (user_id d) (dict_get (total_beers d) 0)
         (dict_get (total_ciders d) 0).

(** The documents that get a row: some entry logged and a positive
    count. *)
Definition ranked (period : option period_lit) (drink_type : drink_filter)
  (clock : Z) (d : user_doc) : bool :=
  match beers d with
  | [] => false
  | _ :: _ => leaderboard_count period drink_type clock d >? 0
  end.

(** Descending by key. *)
Definition descending {A : Type} (key : A -> Z) (l : list A) : Prop :=
  StronglySorted (fun x y => key y <= key x) l.

(** Entries of equal key stand in [l'] in the order they have in [l]. *)
Definition keeps_order_of_ties {A : Type} (key : A -> Z) (l l' : list A)
  : Prop :=
  forall k, filter (fun x => key x =? k) l' = filter (fun x => key x =? k) l.

(** ** The messages *)

(** [str(n)] of an integer. *)
Definition py_str (n : Z) : string := NilZero.string_of_int (Z.to_int n).

(** [get_drink_emoji], called with [beer.get("type", "beer")]. *)
Definition get_drink_emoji (drink_type : pyval) : string :=
  if py_eq_str drink_type "beer" then "🍺"
  else if py_eq_str drink_type "cider" then "🍎"
  else "🍺".

(** A field of the embed of [/my_beers]: the emoji and the Prague time
    of its name (the time before [strftime]), and its value. *)
Record beer_field : Type := mk_beer_field {
  f_emoji : string;
  f_beer_time : Z;
  f_value : string
}.

(** The parts of the footer, ["Previous: /my_beers page=..."] and
    ["Next: /my_beers page=..."]. *)
Inductive footer_part : Type :=
| Previous (page : Z)
| Next (page : Z).

(** What the embed of [/my_beers] is built from: the page and the page
    count of its title, the total of its description, its fields and its
    footer. *)
Record beers_embed : Type := mk_beers_embed {
  e_page : Z;
  e_total_pages : Z;
  e_total_beers : Z;
  e_fields : list beer_field;
  e_footer : list footer_part
}.

(** The body of the loop over [paginated_beers], lines 151-157. *)
Definition beer_field_of (beer : beer) : beer_field :=
  let beer_time := ts_to_prague_time (b_timestamp beer) in
  let drink_type := dict_get (b_type beer) (PyStr "beer") in
  let emoji := get_drink_emoji drink_type in
  mk_beer_field emoji beer_time
                (String.append "`" (String.append (b_id beer) "`")).

(** [footer_parts], lines 160-164. *)
Definition footer_parts (page total_pages : Z) : list footer_part :=
  (if page >? 1 then [Previous (page - 1)] else [])
  ++ (if page <? total_pages then [Next (page + 1)] else []).

(** The embed [/my_beers] sends for a page, lines 144-169; [None] for
    the two replies that are plain messages. *)
Definition my_beers_embed (r : my_beers_reply) : option beers_embed :=
  match r with
  | BeerPage paginated_beers page total_pages total_beers =>
      Some (mk_beers_embed page total_pages total_beers
                           (map beer_field_of paginated_beers)
                           (footer_parts page total_pages))
  | _ => None
  end.

(** The entries a reply of [/my_beers] lists. *)
Definition page_items (r : my_beers_reply) : list beer :=
  match r with
  | BeerPage paginated_beers _ _ _ => paginated_beers
  | _ => []
  end.

(** [timedelta(minutes=n)] and [timedelta(hours=n)] *)
Definition timedelta_minutes (n : Z) : Z := n * 60000000.
Definition timedelta_hours (n : Z) : Z := n * 3600000000.

Inductive age_unit : Type := AMinute | AHour | ADay | AMonth | AYear.

Definition unit_name (u : age_unit) : string :=
  match u with
  | AMinute => "minute"
  | AHour => "hour"
  | ADay => "day"
  | AMonth => "month"
  | AYear => "year"
  end.

(** What [time_str] is worded from. *)
Inductive age : Type :=
| JustNow
| Ago (n : Z) (unit : age_unit).

(** The time formatting of [/beer_last], lines 449-466, on the
    [time_diff] in microseconds.  [total_seconds() // 60] and its like
    are floor divisions of a float that holds the microseconds of less
    than 30 days exactly to the microsecond, so they are the floor
    divisions of the microseconds; [time_diff.days] is the floor of the
    days. *)
Definition time_age (time_diff : Z) : age :=
  if time_diff <? timedelta_minutes 1 then JustNow
  else if time_diff <? timedelta_hours 1
  then Ago (time_diff / (60 * 1000000)) AMinute
  else if time_diff <? timedelta_days 1
  then Ago (time_diff / (3600 * 1000000)) AHour
  else if time_diff <? timedelta_days 30
  then Ago (time_diff / (86400 * 1000000)) ADay
  else if time_diff <? timedelta_days 365
  then Ago (time_diff / day_us / 30) AMonth
  else Ago (time_diff / day_us / 365) AYear.

(** ["just now"], or [f"{n} unit{'s' if n != 1 else ''} ago"]. *)
Definition time_str (time_diff : Z) : string :=
  match time_age time_diff with
  | JustNow => "just now"
  | Ago n u =>
      String.append (py_str n)
        (String.append " "
           (String.append (unit_name u)
              (String.append (if negb (n =? 1) then "s" else "") " ago")))
  end.

(** [time_str] of the message of [/beer_last], the clock standing at
    [clock]: [time_diff = now - last_time], both in [prague_tz]. *)
Definition beer_last_time_str (clock : Z) (r : last_reply) : option string :=
  match r with
  | LastBeer _ last_time => Some (time_str (now_prague clock - last_time))
  | _ => None
  end.

(** Ages in the order of what they say: by unit, then by number. *)
Definition unit_rank (u : age_unit) : Z :=
  match u with
  | AMinute => 1
  | AHour => 2
  | ADay => 3
  | AMonth => 4
  | AYear => 5
  end.

Definition age_le (a b : age) : Prop :=
  match a, b with
  | JustNow, _ => True
  | Ago _ _, JustNow => False
  | Ago n u, Ago n' u' =>
      unit_rank u < unit_rank u' \/ (u = u' /\ n <= n')
  end.

(** ** Sample users and stores *)

Definition ann : discord_user := mk_discord_user 1 "ann".
Definition bob : discord_user := mk_discord_user 2 "bob".
Definition cid : discord_user := mk_discord_user 3 "cid".

Definition a_beer : pyval := PyStr "beer".
Definition a_cider : pyval := PyStr "cider".

Definition hour_us : Z := 3600000000.

(** Sample ids in the form [uuid.uuid4()] prints, one per number below
    100. *)
Definition sample_uuid (n : nat) : string :=
  String.append "00000000-0000-4000-8000-0000000000"
    (String (ascii_of_nat (48 + n / 10))
            (String (ascii_of_nat (48 + n mod 10)) EmptyString)).

Definition no_db : db := mk_db [] [].

(** 12 January 2025, 11:00 UTC: noon on a Prague clock in winter. *)
Definition clock_noon : Z := 20100 * day_us + 11 * hour_us.

(** Ann logs one beer 16 hours earlier, at 20:00 the evening before. *)

Definition evening_beer : beer :=
  mk_beer (sample_uuid 1) (clock_noon - 16 * hour_us) (Some a_beer).

Definition evening_db : db :=
  snd (log_beer ann None a_beer (sample_uuid 1)
                (clock_noon - 16 * hour_us) no_db).

(** Ann logs three beers while the clock of the host reads 10:00,
    11:00 and, set back, 9:00. *)
Definition beer_at (n : nat) (h : Z) : beer :=
  mk_beer (sample_uuid n) (h * hour_us) (Some a_beer).

Definition clock_set_back_db : db :=
  snd (log_beer ann None a_beer (sample_uuid 3) (9 * hour_us)
    (snd (log_beer ann None a_beer (sample_uuid 2) (11 * hour_us)
      (snd (log_beer ann None a_beer (sample_uuid 1) (10 * hour_us)
                     no_db))))).

(** Ann logs three beers at 9:00, 10:00 and 11:00. *)
Definition in_order_db : db :=
  snd (log_beer ann None a_beer (sample_uuid 3) (11 * hour_us)
    (snd (log_beer ann None a_beer (sample_uuid 2) (10 * hour_us)
      (snd (log_beer ann None a_beer (sample_uuid 1) (9 * hour_us)
                     no_db))))).

(** Ann logs two beers at the same reading of the clock. *)
Definition tie_db : db :=
  snd (log_beer ann None a_beer (sample_uuid 2) (10 * hour_us)
    (snd (log_beer ann None a_beer (sample_uuid 1) (10 * hour_us)
                   no_db))).

(** A document from before the counters existed next to a current
    one. *)
Definition legacy_db : db :=
  mk_db [mk_user_doc 1 "ann" [mk_beer (sample_uuid 1) (10 * hour_us) None]
                     None None;
         mk_user_doc 2 "bob" [beer_at 2 11] (Some 1) (Some 0)]
        [].

(** A document with entries and two ciders counted, [total_beers]
    missing. *)
Definition half_legacy_db : db :=
  mk_db [mk_user_doc 1 "ann"
           [mk_beer (sample_uuid 1) (10 * hour_us) (Some a_cider);
            mk_beer (sample_uuid 2) (11 * hour_us) (Some a_cider)]
           None (Some 2)]
        [].

(** A user with [n] beers logged, numbered from [first]. *)
Definition drinker (u : discord_user) (first n : nat) : user_doc :=
  mk_user_doc (u_id u) (u_name u)
    (map (fun i => beer_at i (Z.of_nat i)) (seq first n))
    (Some (Z.of_nat n)) (Some 0).

(** Three users with 5, 5 and 3 beers. *)
Definition tied_db : db :=
  mk_db [drinker ann 0 5; drinker bob 5 5; drinker cid 10 3] [].

(** A run of the two writing commands. *)
Definition sample_run : list op :=
  [OpLog ann None a_beer (sample_uuid 1) (10 * hour_us);
   OpLog bob (Some ann) a_cider (sample_uuid 2) (11 * hour_us);
   OpLog bob None a_beer (sample_uuid 3) (12 * hour_us);
   OpDelete ann (sample_uuid 1)].

(** ** Facts about lists and the sort *)

Section SortFacts.
Context {A : Type} (key : A -> Z).

Lemma insert_asc_perm (x : A) (l : list A) :
  Permutation (insert_asc key x l) (x :: l).
Proof.
  induction l as [|y l IH]; simpl; [reflexivity|].
  destruct (key y <? key x); [|reflexivity].
  rewrite IH. apply perm_swap.
Qed.

Lemma stable_sort_asc_perm (l : list A) :
  Permutation (stable_sort_asc key l) l.
Proof.
  induction l as [|x l IH]; simpl; [constructor|].
  rewrite insert_asc_perm. now constructor.
Qed.

Lemma insert_asc_sorted (x : A) (l : list A) :
  StronglySorted (fun a b => key a <= key b) l ->
  StronglySorted (fun a b => key a <= key b) (insert_asc key x l).
Proof.
  induction 1 as [|y l Hs IH Hall]; simpl.
  - repeat constructor.
  - destruct (key y <? key x) eqn:E.
    + apply Z.ltb_lt in E. constructor; [exact IH|].
      rewrite insert_asc_perm. constructor; [lia|exact Hall].
    + apply Z.ltb_ge in E. constructor.
      * now constructor.
      * constructor; [exact E|].
        eapply Forall_impl; [|exact Hall]. simpl. intros; lia.
Qed.

Lemma stable_sort_asc_sorted (l : list A) :
  StronglySorted (fun a b => key a <= key b) (stable_sort_asc key l).
Proof.
  induction l as [|x l IH]; simpl; [constructor|].
  now apply insert_asc_sorted.
Qed.

(** An inserted element never passes an element of its own key. *)
Lemma insert_asc_ties (k : Z) (x : A) (l : list A) :
  filter (fun a => key a =? k) (insert_asc key x l)
  = filter (fun a => key a =? k) (x :: l).
Proof.
  induction l as [|y l IH]; [reflexivity|].
  simpl insert_asc. destruct (key y <? key x) eqn:E; [|reflexivity].
  apply Z.ltb_lt in E. simpl in *. rewrite IH.
  destruct (key y =? k) eqn:Ey; destruct (key x =? k) eqn:Ex;
    try reflexivity.
  apply Z.eqb_eq in Ey, Ex. lia.
Qed.

Lemma stable_sort_asc_ties (k : Z) (l : list A) :
  filter (fun a => key a =? k) (stable_sort_asc key l)
  = filter (fun a => key a =? k) l.
Proof.
  induction l as [|x l IH]; [reflexivity|].
  simpl stable_sort_asc. rewrite insert_asc_ties. simpl. now rewrite IH.
Qed.

Lemma sorted_snoc (R : A -> A -> Prop) (l : list A) (x : A) :
  StronglySorted R l -> Forall (fun y => R y x) l ->
  StronglySorted R (l ++ [x]).
Proof.
  induction 1 as [|y l Hs IH Hall]; intros Hx; simpl.
  - repeat constructor.
  - inversion Hx; subst. constructor; [now apply IH|].
    apply Forall_app. split; [exact Hall|]. now constructor.
Qed.

Lemma sorted_rev (R : A -> A -> Prop) (l : list A) :
  StronglySorted R l -> StronglySorted (fun a b => R b a) (rev l).
Proof.
  induction 1 as [|y l Hs IH Hall]; simpl; [constructor|].
  apply sorted_snoc; [exact IH|].
  apply Forall_rev. exact Hall.
Qed.

Lemma filter_rev_comm (f : A -> bool) (l : list A) :
  filter f (rev l) = rev (filter f l).
Proof.
  induction l as [|x l IH]; [reflexivity|].
  simpl. rewrite filter_app, IH. simpl.
  destruct (f x); simpl; [reflexivity|apply app_nil_r].
Qed.

Lemma sorted_reverse_perm (l : list A) :
  Permutation (sorted_reverse key l) l.
Proof.
  unfold sorted_reverse.
  rewrite <- Permutation_rev, stable_sort_asc_perm.
  symmetry. apply Permutation_rev.
Qed.

Lemma sorted_reverse_descending (l : list A) :
  descending key (sorted_reverse key l).
Proof.
  unfold descending, sorted_reverse.
  apply (sorted_rev (fun a b => key a <= key b)).
  apply stable_sort_asc_sorted.
Qed.

Lemma sorted_reverse_ties (l : list A) :
  keeps_order_of_ties key l (sorted_reverse key l).
Proof.
  intros k. unfold sorted_reverse.
  rewrite filter_rev_comm, stable_sort_asc_ties, filter_rev_comm.
  apply rev_involutive.
Qed.

Lemma sorted_reverse_length (l : list A) :
  len (sorted_reverse key l) = len l.
Proof.
  unfold len. f_equal. apply Permutation_length, sorted_reverse_perm.
Qed.
End SortFacts.

(** ** Facts about the counters *)

Lemma beer_not_cider (b : beer) : is_beer b = true -> is_cider b = false.
Proof.
  unfold is_beer, is_cider.
  destruct (b_type b) as [[|s]|]; simpl; try reflexivity.
  intros E. apply String.eqb_eq in E. now subst s.
Qed.

Lemma len_cons {A : Type} (x : A) (l : list A) : len (x :: l) = len l + 1.
Proof. unfold len. cbn [List.length]. lia. Qed.

Lemma len_nonneg {A : Type} (l : list A) : 0 <= len l.
Proof. unfold len. lia. Qed.

Lemma len_app {A : Type} (l l' : list A) : len (l ++ l') = len l + len l'.
Proof. unfold len. rewrite List.length_app. lia. Qed.

Lemma counts_le (l : list beer) :
  len (filter is_beer l) + len (filter is_cider l) <= len l.
Proof.
  induction l as [|b l IH]; [reflexivity|].
  cbn [filter]. rewrite len_cons.
  destruct (is_beer b) eqn:Eb.
  - rewrite (beer_not_cider b Eb), len_cons. lia.
  - destruct (is_cider b); rewrite ?len_cons; lia.
Qed.

Lemma counts_typed (l : list beer) :
  len (filter is_beer l) + len (filter is_cider l) = len l ->
  Forall (fun b => is_beer b || is_cider b = true) l.
Proof.
  induction l as [|b l IH]; [constructor|].
  pose proof (counts_le l) as Hle.
  cbn [filter]. rewrite len_cons.
  destruct (is_beer b) eqn:Eb.
  - rewrite (beer_not_cider b Eb), len_cons. intros H.
    constructor; [now rewrite Eb|]. apply IH. lia.
  - destruct (is_cider b) eqn:Ec; rewrite ?len_cons; intros H.
    + constructor; [now rewrite Eb, Ec|]. apply IH. lia.
    + lia.
Qed.

Lemma typed_counts (l : list beer) :
  Forall (fun b => is_beer b || is_cider b = true) l ->
  len (filter is_beer l) + len (filter is_cider l) = len l.
Proof.
  induction 1 as [|b l Hb Hl IH]; [reflexivity|].
  cbn [filter]. rewrite len_cons.
  destruct (is_beer b) eqn:Eb.
  - rewrite (beer_not_cider b Eb), len_cons. lia.
  - simpl in Hb. rewrite Hb, len_cons. lia.
Qed.

Lemma typed_filter (f : beer -> bool) (l : list beer) :
  Forall (fun b => is_beer b || is_cider b = true) l ->
  Forall (fun b => is_beer b || is_cider b = true) (filter f l).
Proof.
  intros H. apply Forall_forall. intros b Hin.
  apply filter_In in Hin. destruct Hin as [Hin _].
  revert b Hin. now apply Forall_forall.
Qed.

Lemma Forall_replace_first (P : user_doc -> Prop) (uid : Z)
  (doc : user_doc) (c : list user_doc) :
  Forall P c -> P doc -> Forall P (replace_first uid doc c).
Proof.
  intros Hc Hdoc. induction Hc as [|d c Hd Hc IH]; simpl.
  - now constructor.
  - destruct (user_id d =? uid); now constructor.
Qed.

Lemma Forall_set_first (P : user_doc -> Prop) (uid : Z) (bs : list beer)
  (tb tc : Z) (c : list user_doc) :
  Forall P c ->
  (forall d, P (mk_user_doc (user_id d) (username d) bs (Some tb) (Some tc))) ->
  Forall P (set_first uid bs tb tc c).
Proof.
  intros Hc Hnew. induction Hc as [|d c Hd Hc IH]; simpl.
  - constructor.
  - destruct (user_id d =? uid); now constructor.
Qed.

Lemma find_some_Forall (P : user_doc -> Prop) (f : user_doc -> bool)
  (c : list user_doc) (d : user_doc) :
  Forall P c -> find f c = Some d -> P d.
Proof.
  intros Hc Hf. apply find_some in Hf. destruct Hf as [Hin _].
  revert d Hin. now apply Forall_forall.
Qed.

Lemma log_beer_keeps (iu : discord_user) (user : option discord_user)
  (drink_type : pyval) (beer_id : string) (current_time : Z) (s : db) :
  store_counters_match s ->
  drink_type = PyStr "beer" \/ drink_type = PyStr "cider" ->
  store_counters_match
    (snd (log_beer iu user drink_type beer_id current_time s)).
Proof.
  unfold store_counters_match, log_beer, bind, find_one_user, replace_one,
    ret.
  cbn [snd coll called]. intros Hs Hdt.
  apply Forall_replace_first; [exact Hs|].
  set (new := mk_beer beer_id current_time (Some drink_type)).
  assert (Hnew : is_beer new = py_eq_str drink_type "beer"
                 /\ is_cider new = py_eq_str drink_type "cider")
    by (split; reflexivity).
  destruct Hnew as [Hnb Hnc].
  destruct (find _ (coll s)) as [d|] eqn:Ef.
  - destruct (find_some_Forall _ _ _ _ Hs Ef) as (Hb & Hc & Hsum).
    unfold counters_match. cbn [beers total_beers total_ciders].
    rewrite !filter_app, !len_app. cbn [filter]. rewrite Hnb, Hnc, Hb, Hc.
    destruct Hdt as [-> | ->]; cbn [py_eq_str String.eqb Ascii.eqb Bool.eqb
      dict_get andb]; rewrite ?len_cons; cbn [len List.length Z.of_nat];
      (split; [f_equal; lia | split; [f_equal; lia | lia]]).
  - unfold counters_match. cbn [beers total_beers total_ciders app filter].
    rewrite Hnb, Hnc.
    destruct Hdt as [-> | ->]; now cbn.
Qed.

Lemma beer_delete_keeps (iu : discord_user) (beer_uuid : string) (s : db) :
  store_counters_match s ->
  store_counters_match (snd (beer_delete iu beer_uuid s)).
Proof.
  unfold store_counters_match, beer_delete, bind, find_one_beer, update_one,
    ret.
  intros Hs. destruct (uuid_parses beer_uuid); [|exact Hs].
  cbn [negb snd coll called].
  destruct (find _ (coll s)) as [d|] eqn:Ef; [|exact Hs].
  destruct (user_id d =? u_id iu); [|exact Hs]. cbn [negb].
  destruct (find _ (beers d)); [|exact Hs].
  cbn [snd coll]. apply Forall_set_first; [exact Hs|].
  intros d'. unfold counters_match. cbn [beers total_beers total_ciders].
  repeat split. apply typed_counts, typed_filter, counts_typed.
  now destruct (find_some_Forall _ _ _ _ Hs Ef) as (_ & _ & Hsum).
Qed.

Lemma run_op_keeps (o : op) (s : db) :
  store_counters_match s -> logs_beer_or_cider o ->
  store_counters_match (run_op o s).
Proof.
  destruct o; simpl; intros Hs Ho.
  - now apply log_beer_keeps.
  - now apply beer_delete_keeps.
Qed.

(** ** Facts about deletion *)

Lemma find_none_all {A : Type} (f : A -> bool) (l : list A) :
  (forall x, In x l -> f x = false) -> find f l = None.
Proof.
  induction l as [|y l IH]; intros H; [reflexivity|]. simpl.
  rewrite (H y (or_introl eq_refl)). apply IH.
  intros x Hx. apply H. now right.
Qed.

Lemma removed_beer_gone (beer_uuid : string) (bs : list beer) :
  existsb (fun b => String.eqb (b_id b) beer_uuid)
          (filter (fun b => negb (String.eqb (b_id b) beer_uuid)) bs)
  = false.
Proof.
  induction bs as [|b bs IH]; [reflexivity|]. simpl.
  destruct (String.eqb (b_id b) beer_uuid) eqn:E; simpl; [exact IH|].
  now rewrite E.
Qed.

Lemma set_first_no_beer (beer_uuid : string) (d : user_doc)
  (bs : list beer) (tb tc : Z) (c : list user_doc) :
  In d c ->
  NoDup (map user_id c) ->
  (forall x, In x c -> has_beer beer_uuid x = true -> user_id x = user_id d) ->
  existsb (fun b => String.eqb (b_id b) beer_uuid) bs = false ->
  forall x, In x (set_first (user_id d) bs tb tc c) ->
            has_beer beer_uuid x = false.
Proof.
  intros Hd Hnd Hown Hbs.
  induction c as [|y c IH]; [contradiction|].
  simpl in Hnd. inversion Hnd as [|? ? Hy Hc]; subst.
  simpl. destruct (user_id y =? user_id d) eqn:E.
  - apply Z.eqb_eq in E. intros x [<- | Hx]; [exact Hbs|].
    destruct (has_beer beer_uuid x) eqn:Hb; [|reflexivity].
    exfalso. apply Hy. rewrite E.
    rewrite <- (Hown x (or_intror Hx) Hb). now apply in_map.
  - apply Z.eqb_neq in E.
    destruct Hd as [-> | Hd]; [congruence|].
    intros x [<- | Hx].
    + destruct (has_beer beer_uuid y) eqn:Hb; [|reflexivity].
      exfalso. apply E. apply Hown; [now left|exact Hb].
    + apply IH; try assumption.
      intros z Hz. apply Hown. now right.
Qed.

(** ** The keys of the store are kept by the writing commands *)

Lemma replace_first_other (uid : Z) (doc : user_doc) (c : list user_doc)
  (x : user_doc) :
  NoDup (map user_id c) ->
  In x (replace_first uid doc c) ->
  x = doc \/ (In x c /\ user_id x <> uid).
Proof.
  induction c as [|y c IH]; simpl; intros Hnd Hx.
  - destruct Hx as [<- | []]. now left.
  - inversion Hnd as [|? ? Hy Hc]; subst.
    destruct (user_id y =? uid) eqn:E.
    + apply Z.eqb_eq in E. destruct Hx as [<- | Hx]; [now left|].
      right. split; [now right|]. intros Hu. apply Hy. rewrite E, <- Hu.
      now apply in_map.
    + apply Z.eqb_neq in E. destruct Hx as [<- | Hx]; [right; auto|].
      destruct (IH Hc Hx) as [-> | [Hin Hne]]; [now left|right; auto].
Qed.

Lemma replace_first_keys (uid : Z) (doc : user_doc) (c : list user_doc) :
  user_id doc = uid ->
  NoDup (map user_id c) ->
  NoDup (map user_id (replace_first uid doc c)).
Proof.
  intros Hdoc. induction c as [|y c IH]; simpl; intros Hnd.
  - repeat constructor. intros [].
  - inversion Hnd as [|? ? Hy Hc]; subst.
    destruct (user_id y =? user_id doc) eqn:E; simpl.
    + apply Z.eqb_eq in E. rewrite <- E. now constructor.
    + apply Z.eqb_neq in E. constructor; [|now apply IH].
      intros Hin. apply in_map_iff in Hin. destruct Hin as (x & Hx & Hin).
      destruct (replace_first_other _ _ _ _ Hc Hin) as [-> | [Hin' _]].
      * congruence.
      * apply Hy. rewrite <- Hx. now apply in_map.
Qed.

Lemma set_first_keys (uid : Z) (bs : list beer) (tb tc : Z)
  (c : list user_doc) :
  map user_id (set_first uid bs tb tc c) = map user_id c.
Proof.
  induction c as [|y c IH]; [reflexivity|]. simpl.
  destruct (user_id y =? uid); simpl; [reflexivity|now rewrite IH].
Qed.

Lemma set_first_other (uid : Z) (bs : list beer) (tb tc : Z)
  (c : list user_doc) (x : user_doc) :
  NoDup (map user_id c) ->
  In x (set_first uid bs tb tc c) ->
  (user_id x = uid /\ beers x = bs) \/ (In x c /\ user_id x <> uid).
Proof.
  induction c as [|y c IH]; simpl; intros Hnd Hx; [contradiction|].
  inversion Hnd as [|? ? Hy Hc]; subst.
  destruct (user_id y =? uid) eqn:E.
  - apply Z.eqb_eq in E. destruct Hx as [<- | Hx]; [left; auto|].
    right. split; [now right|]. intros Hu. apply Hy. rewrite E, <- Hu.
    now apply in_map.
  - apply Z.eqb_neq in E. destruct Hx as [<- | Hx]; [right; auto|].
    destruct (IH Hc Hx) as [H | [Hin Hne]]; [now left|right; auto].
Qed.

Lemma existsb_filter_incl {A : Type} (p f : A -> bool) (l : list A) :
  existsb p (filter f l) = true -> existsb p l = true.
Proof.
  rewrite !existsb_exists. intros (x & Hx & Hp).
  apply filter_In in Hx. exists x. now split.
Qed.

Lemma log_beer_well_formed (iu : discord_user) (user : option discord_user)
  (drink_type : pyval) (beer_id : string) (current_time : Z) (s : db) :
  store_well_formed s ->
  (forall d, In d (coll s) -> has_beer beer_id d = false) ->
  store_well_formed (snd (log_beer iu user drink_type beer_id current_time s)).
Proof.
  intros [Hkeys Hone] Hfresh.
  unfold store_well_formed, log_beer, bind, find_one_user, replace_one, ret.
  cbn [snd coll called].
  set (uid := u_id (target_of iu user)).
  set (new := mk_beer beer_id current_time (Some drink_type)).
  match goal with
  | |- context [replace_first uid ?d _] => set (doc := d)
  end.
  assert (Hdoc : user_id doc = uid).
  { unfold doc. cbn [user_id].
    destruct (find _ (coll s)) as [d|] eqn:Ef; [|reflexivity].
    apply find_some in Ef. now apply Z.eqb_eq. }
  assert (Hbeers : forall beer_uuid,
             has_beer beer_uuid doc = true ->
             beer_uuid = beer_id
             \/ exists d, In d (coll s) /\ user_id d = uid
                          /\ has_beer beer_uuid d = true).
  { intros beer_uuid. unfold has_beer, doc. cbn [beers].
    rewrite existsb_app. intros H. apply orb_prop in H.
    destruct H as [H | H].
    - right. destruct (find _ (coll s)) as [d|] eqn:Ef; [|discriminate].
      apply find_some in Ef. destruct Ef as [Hin Hu].
      exists d. repeat split; [exact Hin|now apply Z.eqb_eq|exact H].
    - left. cbn in H. rewrite orb_false_r in H.
      symmetry. now apply String.eqb_eq. }
  split; [now apply replace_first_keys|].
  intros beer_uuid d1 d2 H1 H2 Hb1 Hb2.
  destruct (replace_first_other _ _ _ _ Hkeys H1) as [-> | [Hin1 Hne1]];
    destruct (replace_first_other _ _ _ _ Hkeys H2) as [-> | [Hin2 Hne2]].
  - reflexivity.
  - exfalso. destruct (Hbeers _ Hb1) as [-> | (d & Hd & Hu & Hb)].
    + rewrite (Hfresh d2 Hin2) in Hb2. discriminate.
    + apply Hne2. rewrite <- Hu. now apply (Hone beer_uuid).
  - exfalso. destruct (Hbeers _ Hb2) as [-> | (d & Hd & Hu & Hb)].
    + rewrite (Hfresh d1 Hin1) in Hb1. discriminate.
    + apply Hne1. rewrite <- Hu. now apply (Hone beer_uuid).
  - now apply (Hone beer_uuid).
Qed.

Lemma beer_delete_well_formed (iu : discord_user) (beer_uuid : string)
  (s : db) :
  store_well_formed s ->
  store_well_formed (snd (beer_delete iu beer_uuid s)).
Proof.
  intros Hs. assert (Hs' := Hs). destruct Hs' as [Hkeys Hone].
  unfold beer_delete, bind, find_one_beer, update_one, ret.
  destruct (uuid_parses beer_uuid); [|exact Hs]. cbn [negb].
  destruct (find _ (coll s)) as [d|] eqn:Ef; [|exact Hs].
  destruct (user_id d =? u_id iu); [|exact Hs]. cbn [negb].
  destruct (find _ (beers d)); [|exact Hs].
  apply find_some in Ef. destruct Ef as [Hd _].
  unfold store_well_formed. cbn [snd coll]. rewrite set_first_keys.
  split; [exact Hkeys|].
  assert (Hsub : forall id x,
             In x (set_first (user_id d)
                     (filter (fun b => negb (String.eqb (b_id b) beer_uuid))
                             (beers d))
                     (len (filter is_beer
                        (filter (fun b => negb (String.eqb (b_id b) beer_uuid))
                                (beers d))))
                     (len (filter is_cider
                        (filter (fun b => negb (String.eqb (b_id b) beer_uuid))
                                (beers d))))
                     (coll s)) ->
             has_beer id x = true ->
             exists y, In y (coll s) /\ user_id y = user_id x
                       /\ has_beer id y = true).
  { intros id x Hx Hb.
    destruct (set_first_other _ _ _ _ _ _ Hkeys Hx) as [[Hu Hbs] | [Hin _]].
    - exists d. repeat split; [exact Hd|now symmetry|].
      unfold has_beer in *. rewrite Hbs in Hb.
      now apply existsb_filter_incl in Hb.
    - exists x. now repeat split. }
  intros id d1 d2 H1 H2 Hb1 Hb2.
  destruct (Hsub id d1 H1 Hb1) as (y1 & Hy1 & <- & Hby1).
  destruct (Hsub id d2 H2 Hb2) as (y2 & Hy2 & <- & Hby2).
  now apply (Hone id).
Qed.

(** X18. The two keys of the data model are kept along every run of
    [/beer] and [/beer_delete] in which each [/beer] draws an id that no
    document of the store it meets holds: after each command user ids
    still identify one document each, and the entries with a given id
    still sit with one user. *)
Lemma well_formed_after_each_op (ops : list op) (s : db) :
  store_well_formed s ->
  draws_fresh_ids ops s ->
  Forall store_well_formed (states_after ops s).
Proof.
  revert s. induction ops as [|o ops IH]; intros s Hs Hfresh; simpl.
  - constructor.
  - destruct Hfresh as [Ho Hops].
    assert (Hs' : store_well_formed (run_op o s)).
    { destruct o; simpl.
      - now apply log_beer_well_formed.
      - now apply beer_delete_well_formed. }
    constructor; [exact Hs'|]. now apply IH.
Qed.

(** ** Facts about slices *)

Lemma py_slice_to_firstn {A : Type} (l : list A) (stop : Z) :
  0 <= stop -> py_slice_to l stop = firstn (Z.to_nat stop) l.
Proof.
  intros Hstop. unfold py_slice_to, py_slice, py_index_clamp.
  pose proof (len_nonneg l) as Hl.
  replace (0 <? 0) with false by reflexivity.
  replace (stop <? 0) with false by (symmetry; apply Z.ltb_ge; lia).
  rewrite (Z.min_l 0 (len l)) by lia. cbn [Z.to_nat skipn].
  rewrite Z.sub_0_r.
  destruct (Z.le_gt_cases stop (len l)) as [Hle | Hgt].
  - now rewrite Z.min_l by lia.
  - rewrite Z.min_r by lia. unfold len in *. rewrite Nat2Z.id.
    rewrite firstn_all. symmetry. apply firstn_all2. lia.
Qed.

Lemma py_slice_incl {A : Type} (l : list A) (start stop : Z) (x : A) :
  In x (py_slice l start stop) -> In x l.
Proof.
  unfold py_slice. intros H.
  rewrite <- (firstn_skipn (Z.to_nat (py_index_clamp (len l) start)) l).
  apply in_or_app. right.
  match goal with
  | H : In x (firstn ?n ?m) |- _ => rewrite <- (firstn_skipn n m)
  end.
  apply in_or_app. now left.
Qed.

Lemma py_slice_length {A : Type} (l : list A) (start limit : Z) :
  0 <= start -> 0 <= limit ->
  len (py_slice l start (start + limit)) <= limit.
Proof.
  intros Hs Hl. unfold py_slice, py_index_clamp.
  pose proof (len_nonneg l) as Hn.
  replace (start <? 0) with false by (symmetry; apply Z.ltb_ge; lia).
  replace (start + limit <? 0) with false
    by (symmetry; apply Z.ltb_ge; lia).
  match goal with |- len (firstn ?n ?m) <= _ => pose proof (firstn_le_length n m) end.
  unfold len in *. lia.
Qed.

(** ** Facts about the leaderboard loop *)

Lemma leaderboard_rows_cases (period : option period_lit)
  (drink_type : drink_filter) (clock : Z) (all_users : list user_doc) :
  (leaderboard_rows period drink_type clock all_users = None
   /\ exists d, In d all_users
                /\ ranked period drink_type clock d = true
                /\ (total_beers d = None \/ total_ciders d = None))
  \/ (leaderboard_rows period drink_type clock all_users
      = Some (map (row_of period drink_type clock)
                  (filter (ranked period drink_type clock) all_users))
      /\ forall d, In d all_users ->
                   ranked period drink_type clock d = true ->
                   total_beers d <> None /\ total_ciders d <> None).
Proof.
  induction all_users as [|d users IH].
  - right. split; [reflexivity|]. intros d [].
  - cbn [leaderboard_rows filter].
    destruct (ranked period drink_type clock d) eqn:Er.
    + assert (Er' := Er). unfold ranked in Er'.
      destruct (beers d) as [|b bs]; [discriminate|]. rewrite Er'.
      destruct (total_beers d) as [tb|] eqn:Etb;
        [destruct (total_ciders d) as [tc|] eqn:Etc|].
      * destruct IH as [(Hn & x & Hx & Hr & Hm) | (Hs & Hall)].
        -- left. rewrite Hn. split; [reflexivity|].
           exists x. repeat split; auto. now right.
        -- right. rewrite Hs. cbn [option_map map]. split.
           ++ unfold row_of at 2. now rewrite Etb, Etc.
           ++ intros x [<- | Hx] Hr; [|now apply Hall].
              rewrite Etb, Etc. split; discriminate.
      * left. split; [reflexivity|]. exists d.
        repeat split; [now left|exact Er|now right].
      * left. split; [reflexivity|]. exists d.
        repeat split; [now left|exact Er|now left].
    + assert (Er' := Er). unfold ranked in Er'.
      destruct (beers d) as [|b bs]; [|rewrite Er'];
        (destruct IH as [(Hn & x & Hx & Hr & Hm) | (Hs & Hall)];
         [ left; split; [exact Hn|]; exists x; repeat split; auto; now right
         | right; split; [exact Hs|];
           intros x [<- | Hx] Hr; [congruence|now apply Hall] ]).
Qed.

(** ** The store: counters, deletion *)

(** C1. Along every run of [/beer] and [/beer_delete] in which each
    logged drink is a beer or a cider, started from a store whose
    documents have matching counters (the empty store is one), every
    document of the store after each command again has
    [total_beers] equal to the number of its beer entries (an entry
    without a type counting as a beer), [total_ciders] equal to the
    number of its cider entries, and the two adding up to the number of
    its entries. *)
Theorem counters_match_after_each_op (ops : list op) (s : db) :
  store_counters_match s ->
  Forall logs_beer_or_cider ops ->
  Forall store_counters_match (states_after ops s).
Proof.
  intros Hs Hops. revert s Hs.
  induction Hops as [|o ops Ho Hops IH]; intros s Hs; simpl.
  - constructor.
  - pose proof (run_op_keeps o s Hs Ho) as Hs'.
    constructor; [exact Hs'|]. now apply IH.
Qed.

(** C8. A string that [uuid.UUID] does not read is answered with the
    invalid-format reply, which is not the not-found reply, and the
    store comes back as it was, trace of calls included: no call to
    the store was made. *)
Theorem beer_delete_malformed (iu : discord_user) (beer_uuid : string)
  (s : db) :
  uuid_parses beer_uuid = false ->
  beer_delete iu beer_uuid s = (InvalidUUID, s)
  /\ InvalidUUID <> NoBeerFound.
Proof.
  intros H. unfold beer_delete. rewrite H. split; [reflexivity|discriminate].
Qed.

(** C6. When the id is well formed, some document holds an entry with
    it and every document that does belongs to somebody else, the reply
    is the not-yours reply, the documents are what they were, and the
    only call made to the store is the lookup. *)
Theorem beer_delete_forbidden (iu : discord_user) (beer_uuid : string)
  (s : db) :
  uuid_parses beer_uuid = true ->
  (exists d, In d (coll s) /\ has_beer beer_uuid d = true) ->
  (forall d, In d (coll s) -> has_beer beer_uuid d = true ->
             user_id d <> u_id iu) ->
  fst (beer_delete iu beer_uuid s) = NotYourBeer
  /\ coll (snd (beer_delete iu beer_uuid s)) = coll s
  /\ calls (snd (beer_delete iu beer_uuid s))
     = calls s ++ [CallFindOneBeer beer_uuid].
Proof.
  intros Hu (d & Hin & Hhas) Hother.
  unfold beer_delete, bind, find_one_beer, ret. rewrite Hu. cbn [negb].
  destruct (find (has_beer beer_uuid) (coll s)) as [owner|] eqn:Ef.
  - apply find_some in Ef. destruct Ef as [Hino Hhaso].
    specialize (Hother owner Hino Hhaso). apply Z.eqb_neq in Hother.
    rewrite Hother. cbn. auto.
  - exfalso. pose proof (find_none _ _ Ef d Hin) as Hn. congruence.
Qed.

(** C7. In a store where user ids are keys and the entries with the
    given id all sit with one user, a deletion that succeeds is followed
    by a deletion of the same id that replies not-found and leaves the
    documents as the first one left them. *)
Theorem beer_delete_twice (iu : discord_user) (beer_uuid : string)
  (s s1 : db) (deleted_beer : beer) :
  NoDup (map user_id (coll s)) ->
  (forall d1 d2, In d1 (coll s) -> In d2 (coll s) ->
                 has_beer beer_uuid d1 = true ->
                 has_beer beer_uuid d2 = true ->
                 user_id d1 = user_id d2) ->
  beer_delete iu beer_uuid s = (Deleted deleted_beer, s1) ->
  fst (beer_delete iu beer_uuid s1) = NoBeerFound
  /\ coll (snd (beer_delete iu beer_uuid s1)) = coll s1.
Proof.
  intros Hkeys Hone Hfirst.
  unfold beer_delete, bind, find_one_beer, update_one, ret in Hfirst.
  destruct (uuid_parses beer_uuid) eqn:Hu; [|discriminate].
  cbn [negb] in Hfirst.
  destruct (find (has_beer beer_uuid) (coll s)) as [d|] eqn:Ef;
    [|discriminate].
  destruct (user_id d =? u_id iu); [|discriminate]. cbn [negb] in Hfirst.
  destruct (find _ (beers d)); [|discriminate].
  injection Hfirst as _ <-.
  apply find_some in Ef. destruct Ef as [Hin Hhas].
  unfold beer_delete, bind, find_one_beer, ret. rewrite Hu.
  cbn [negb coll called].
  rewrite find_none_all; [now split|].
  apply set_first_no_beer;
    [exact Hin|exact Hkeys| |apply removed_beer_gone].
  intros x Hx Hb. now apply Hone.
Qed.

(** ** The queries of one user *)

Lemma filter_drink_type_nil (drink_type : drink_filter) :
  filter_drink_type drink_type [] = [].
Proof. now destruct drink_type. Qed.

Lemma py_last_snoc {A : Type} (l : list A) (x : A) :
  py_last (l ++ [x]) = Some x.
Proof. unfold py_last. now rewrite rev_app_distr. Qed.

Lemma sorted_snoc_bound {A : Type} (R : A -> A -> Prop) (l : list A)
  (x : A) :
  StronglySorted R (l ++ [x]) -> Forall (fun y => R y x) l.
Proof.
  induction l as [|y l IH]; simpl; intros H; [constructor|].
  inversion H as [|? ? Hs Hall]; subst. constructor.
  - apply Forall_app in Hall. destruct Hall as [_ Hx]. now inversion Hx.
  - now apply IH.
Qed.

(** C2, as the code has it. A user without a document or without
    entries gets the nothing-yet reply.  Otherwise, when the
    type-filtered list is not empty, the reply shows its trailing
    entry, the one stored last; that entry has the greatest timestamp
    of the list whenever the list is stored in ascending order of
    timestamps. *)
Theorem beer_last_trailing :
  (forall (iu : discord_user) (user : option discord_user)
          (drink_type : drink_filter) (s : db),
      find (fun x => user_id x =? u_id (target_of iu user)) (coll s) = None
      \/ (exists d,
             find (fun x => user_id x =? u_id (target_of iu user)) (coll s)
             = Some d /\ beers d = []) ->
      fst (beer_last iu user drink_type s) = NoLast)
  /\ (forall (iu : discord_user) (user : option discord_user)
             (drink_type : drink_filter) (s : db) (d : user_doc)
             (earlier : list beer) (last_beer : beer),
         find (fun x => user_id x =? u_id (target_of iu user)) (coll s)
         = Some d ->
         filter_drink_type drink_type (beers d) = earlier ++ [last_beer] ->
         fst (beer_last iu user drink_type s)
         = LastBeer last_beer (ts_to_prague_time (b_timestamp last_beer))
         /\ (StronglySorted (fun a b => b_timestamp a <= b_timestamp b)
                            (earlier ++ [last_beer]) ->
             Forall (fun b => b_timestamp b <= b_timestamp last_beer)
                    (earlier ++ [last_beer]))).
Proof.
  split.
  - intros iu user drink_type s [Hnone | (d & Hd & Hempty)];
      unfold beer_last, bind, find_one_user, ret; cbn [fst].
    + now rewrite Hnone.
    + rewrite Hd. cbn. now rewrite Hempty.
  - intros iu user drink_type s d earlier last_beer Hd Hf. split.
    + unfold beer_last, bind, find_one_user, ret. cbn [fst]. rewrite Hd.
      cbn. destruct (beers d) as [|b bs] eqn:Eb.
      * rewrite filter_drink_type_nil in Hf.
        now destruct earlier.
      * now rewrite Hf, py_last_snoc.
    + intros Hsorted. apply Forall_app. split.
      * now apply sorted_snoc_bound in Hsorted.
      * constructor; [lia|constructor].
Qed.

(** C4, as the code has it. For a user with entries and a page size of
    at least 1, the number of pages is the count of type-filtered
    entries divided by the page size and rounded up, with no minimum:
    it is 0 when the filter leaves nothing.  A page beyond it is
    refused with that number in the reply, so page 1 of an empty
    selection is refused with 0 pages; any other page is shown with at
    most a page size of entries. *)
Theorem my_beers_pages (iu : discord_user) (limit page : Z)
  (drink_type : drink_filter) (s : db) (d : user_doc) :
  1 <= limit -> 1 <= page ->
  find (fun x => user_id x =? u_id iu) (coll s) = Some d ->
  beers d <> [] ->
  exists total_pages,
    (total_pages - 1) * limit
      < len (filter_drink_type drink_type (beers d))
      <= total_pages * limit
    /\ (len (filter_drink_type drink_type (beers d)) = 0 ->
        total_pages = 0)
    /\ ((total_pages < page
         /\ fst (my_beers iu limit page drink_type s)
            = PageDoesNotExist page total_pages)
        \/ (page <= total_pages
            /\ exists paginated_beers,
                fst (my_beers iu limit page drink_type s)
                = BeerPage paginated_beers page total_pages
                    (len (filter_drink_type drink_type (beers d)))
                /\ len paginated_beers <= limit)).
Proof.
  intros Hlimit Hpage Hd Hne.
  set (n := len (filter_drink_type drink_type (beers d))).
  assert (Hn : 0 <= n) by apply len_nonneg.
  exists ((n + limit - 1) / limit).
  pose proof (Z.div_mod (n + limit - 1) limit ltac:(lia)) as Hdm.
  pose proof (Z.mod_pos_bound (n + limit - 1) limit ltac:(lia)) as Hmod.
  split; [nia|]. split.
  - intros H0. rewrite H0. apply Z.div_small. lia.
  - unfold my_beers, bind, find_one_user, ret. cbn [fst]. rewrite Hd. cbn.
    destruct (beers d) as [|b bs] eqn:Eb; [congruence|].
    rewrite sorted_reverse_length. fold n.
    destruct (page >? (n + limit - 1) / limit) eqn:Ep.
    + left. split; [lia|reflexivity].
    + right. split; [lia|]. eexists. split; [reflexivity|].
      apply py_slice_length; nia.
Qed.

(** C9, as the code has it. The list that is cut into pages is the
    type-filtered list rearranged in descending order of timestamps,
    entries of equal timestamp standing in the order they have in the
    stored list, the one stored first in front. *)
Theorem my_beers_order (iu : discord_user) (limit page : Z)
  (drink_type : drink_filter) (s : db) (d : user_doc) :
  1 <= limit ->
  find (fun x => user_id x =? u_id iu) (coll s) = Some d ->
  beers d <> [] ->
  exists all_beers,
    Permutation all_beers (filter_drink_type drink_type (beers d))
    /\ descending b_timestamp all_beers
    /\ keeps_order_of_ties b_timestamp
         (filter_drink_type drink_type (beers d)) all_beers
    /\ (page <= (len all_beers + limit - 1) / limit ->
        fst (my_beers iu limit page drink_type s)
        = BeerPage (py_slice all_beers ((page - 1) * limit)
                             ((page - 1) * limit + limit))
                   page ((len all_beers + limit - 1) / limit)
                   (len all_beers)).
Proof.
  intros _ Hd Hne.
  exists (sorted_reverse b_timestamp
            (filter_drink_type drink_type (beers d))).
  split; [apply sorted_reverse_perm|].
  split; [apply sorted_reverse_descending|].
  split; [apply sorted_reverse_ties|].
  intros Hpage.
  unfold my_beers, bind, find_one_user, ret. cbn [fst]. rewrite Hd. cbn.
  destruct (beers d) as [|b bs] eqn:Eb; [congruence|].
  replace (page >? _) with false; [reflexivity|].
  symmetry. rewrite Z.gtb_ltb. apply Z.ltb_ge. exact Hpage.
Qed.

(** ** Periods and the leaderboard *)

Lemma since_not_before (cutoff : Z) (bs : list beer) :
  since cutoff bs = filter (not_before cutoff) bs.
Proof.
  unfold since, not_before. apply filter_ext. intros b. apply Z.geb_leb.
Qed.

Lemma stats_cutoff_words (p : period_lit) (now : Z) :
  stats_cutoff p now = now - period_span p.
Proof. now destruct p. Qed.

Lemma leaderboard_cutoff_words (p : period_lit) (now : Z) :
  leaderboard_cutoff p now
  = match p with
    | Day => replace_midnight now
    | _ => now - period_span p
    end.
Proof. now destruct p. Qed.

Lemma ranked_iff (period : option period_lit) (drink_type : drink_filter)
  (clock : Z) (d : user_doc) :
  ranked period drink_type clock d = true
  <-> beers d <> [] /\ 0 < leaderboard_count period drink_type clock d.
Proof.
  unfold ranked. destruct (beers d) as [|b bs].
  - split; [discriminate|]. now intros [H _].
  - rewrite Z.gtb_ltb, Z.ltb_lt. split; [|now intros [_ H]].
    intros H. split; [discriminate|exact H].
Qed.

Lemma beer_leaderboard_reply (period : option period_lit) (limit : Z)
  (drink_type : drink_filter) (clock : Z) (s : db) :
  fst (beer_leaderboard period limit drink_type clock s)
  = match coll s with
    | [] => NoBeersLogged
    | _ :: _ =>
        match leaderboard_rows period drink_type clock (coll s) with
        | None => BoardKeyError
        | Some rows =>
            match py_slice_to (sorted_reverse r_count rows) limit with
            | [] => NoBeersInPeriod
            | r :: board => Board (r :: board)
            end
        end
    end.
Proof.
  unfold beer_leaderboard, bind, find_all, ret. cbn [fst].
  destruct (coll s) as [|d users]; [reflexivity|].
  destruct (leaderboard_rows period drink_type clock (d :: users));
    [|reflexivity].
  now destruct (py_slice_to _ limit).
Qed.

(** C3, as the code has it. [/beer_stats] with a period counts exactly
    the type-filtered entries whose Prague time is not before the
    Prague time of now minus 24 hours, 7 days, 30 days or 365 days.
    Each count on the board of [/beer_leaderboard] with a period is
    taken the same way for week, month and year, and for day from the
    start of the current Prague day: the midnight at or before now. *)
Theorem period_cutoffs :
  (forall (iu : discord_user) (user : option discord_user)
          (p : period_lit) (drink_type : drink_filter) (clock : Z)
          (s : db) (d : user_doc),
      find (fun x => user_id x =? u_id (target_of iu user)) (coll s)
      = Some d ->
      beers d <> [] ->
      fst (beer_stats iu user (Some p) drink_type clock s)
      = Stats (len (filter (not_before (now_prague clock - period_span p))
                           (filter_drink_type drink_type (beers d)))))
  /\ (forall (p : period_lit) (drink_type : drink_filter) (clock : Z)
             (d : user_doc),
         leaderboard_count (Some p) drink_type clock d
         = len (filter
                  (not_before
                     match p with
                     | Day => replace_midnight (now_prague clock)
                     | _ => now_prague clock - period_span p
                     end)
                  (filter_drink_type drink_type (beers d))))
  /\ (forall (p : period_lit) (limit : Z) (drink_type : drink_filter)
             (clock : Z) (s : db) (board : list row),
         fst (beer_leaderboard (Some p) limit drink_type clock s)
         = Board board ->
         Forall
           (fun r =>
              exists d,
                In d (coll s) /\ r_user_id r = user_id d
                /\ r_count r
                   = len (filter
                            (not_before
                               match p with
                               | Day => replace_midnight (now_prague clock)
                               | _ => now_prague clock - period_span p
                               end)
                            (filter_drink_type drink_type (beers d))))
           board)
  /\ (forall now : Z,
         replace_midnight now mod day_us = 0
         /\ replace_midnight now <= now < replace_midnight now + day_us).
Proof.
  split; [|split; [|split]].
  - intros iu user p drink_type clock s d Hd Hne.
    unfold beer_stats, bind, find_one_user, ret. cbn [fst]. rewrite Hd.
    cbn. destruct (beers d) as [|b bs]; [congruence|].
    now rewrite since_not_before, stats_cutoff_words.
  - intros p drink_type clock d. unfold leaderboard_count.
    now rewrite since_not_before, leaderboard_cutoff_words.
  - intros p limit drink_type clock s board Hboard.
    rewrite beer_leaderboard_reply in Hboard.
    destruct (coll s) as [|d0 users] eqn:Ec; [discriminate|].
    destruct (leaderboard_rows_cases (Some p) drink_type clock
                (d0 :: users)) as [(Hn & _) | (Hs & _)];
      rewrite ?Hn, ?Hs in Hboard; [discriminate|].
    destruct (py_slice_to _ limit) as [|r rs] eqn:Esl; [discriminate|].
    injection Hboard as <-. rewrite <- Esl.
    apply Forall_forall. intros x Hx.
    apply py_slice_incl in Hx.
    apply (Permutation_in _ (sorted_reverse_perm r_count _)) in Hx.
    apply in_map_iff in Hx. destruct Hx as (d & <- & Hin).
    apply filter_In in Hin. destruct Hin as [Hin _].
    exists d. repeat split; [exact Hin|].
    unfold row_of, leaderboard_count. cbn [r_count].
    now rewrite since_not_before, leaderboard_cutoff_words.
  - intros now. unfold replace_midnight.
    pose proof (Z.mod_pos_bound now day_us ltac:(reflexivity)) as Hb.
    split; [|lia].
    rewrite Zminus_mod, Z.mod_mod, Z.sub_diag by discriminate.
    reflexivity.
Qed.

(** C5. On a non-empty collection whose documents carry both counters,
    the board is a rearrangement of the rows of the documents that have
    entries and a positive count: every document with count 0 is left
    out.  The rows stand in descending order of count, rows of equal
    count in the order of the scan, and the reply shows the first
    [limit] of them.  Without a period and with all drink types the
    count of a row is its beer total plus its cider total. *)
Theorem beer_leaderboard_ranking (period : option period_lit) (limit : Z)
  (drink_type : drink_filter) (clock : Z) (s : db) :
  coll s <> [] ->
  0 <= limit ->
  Forall (fun d => total_beers d <> None /\ total_ciders d <> None)
         (coll s) ->
  exists board,
    Permutation board
      (map (row_of period drink_type clock)
           (filter (ranked period drink_type clock) (coll s)))
    /\ (forall d, ranked period drink_type clock d = true <->
                  beers d <> []
                  /\ 0 < leaderboard_count period drink_type clock d)
    /\ Forall (fun r => 0 < r_count r) board
    /\ descending r_count board
    /\ keeps_order_of_ties r_count
         (map (row_of period drink_type clock)
              (filter (ranked period drink_type clock) (coll s)))
         board
    /\ (period = None -> drink_type = FilterAll ->
        Forall (fun r => r_count r = r_total_beers r + r_total_ciders r)
               board)
    /\ fst (beer_leaderboard period limit drink_type clock s)
       = match firstn (Z.to_nat limit) board with
         | [] => NoBeersInPeriod
         | r :: rows => Board (r :: rows)
         end.
Proof.
  intros Hne Hlimit Hcounters.
  set (rows := map (row_of period drink_type clock)
                   (filter (ranked period drink_type clock) (coll s))).
  assert (Hrows : forall r, In r rows ->
              exists d, r = row_of period drink_type clock d
                        /\ ranked period drink_type clock d = true).
  { intros r Hr. apply in_map_iff in Hr. destruct Hr as (d & <- & Hin).
    apply filter_In in Hin. exists d. now split. }
  exists (sorted_reverse r_count rows).
  split; [apply sorted_reverse_perm|].
  split; [intros d; apply ranked_iff|].
  split.
  { apply Forall_forall. intros r Hr.
    apply (Permutation_in _ (sorted_reverse_perm r_count _)) in Hr.
    destruct (Hrows r Hr) as (d & -> & Hd).
    apply ranked_iff in Hd. now destruct Hd. }
  split; [apply sorted_reverse_descending|].
  split; [apply sorted_reverse_ties|].
  split.
  { intros -> ->. apply Forall_forall. intros r Hr.
    apply (Permutation_in _ (sorted_reverse_perm r_count _)) in Hr.
    destruct (Hrows r Hr) as (d & -> & _). reflexivity. }
  rewrite beer_leaderboard_reply.
  destruct (coll s) as [|d0 users] eqn:Ec; [congruence|].
  destruct (leaderboard_rows_cases period drink_type clock (d0 :: users))
    as [(_ & d & Hin & _ & Hmiss) | (Hs & _)].
  - exfalso. rewrite Forall_forall in Hcounters.
    destruct (Hcounters d Hin) as [Hb Hc]. now destruct Hmiss.
  - rewrite Hs. fold rows. now rewrite py_slice_to_firstn.
Qed.

(** C10, as the code has it. [/beer_leaderboard] fails with the
    [KeyError] exactly when some document with entries and a positive
    count lacks [total_beers] or [total_ciders].  A missing counter is
    read as 0 when the count is taken from the counters, so a document
    that lacks both has count 0 there and is skipped without a
    failure. *)
Theorem beer_leaderboard_key_error (period : option period_lit)
  (limit : Z) (drink_type : drink_filter) (clock : Z) (s : db) :
  (fst (beer_leaderboard period limit drink_type clock s) = BoardKeyError
   <-> exists d,
         In d (coll s)
         /\ beers d <> []
         /\ 0 < leaderboard_count period drink_type clock d
         /\ (total_beers d = None \/ total_ciders d = None))
  /\ (forall d, total_beers d = None ->
                leaderboard_count None FilterBeer clock d = 0
                /\ leaderboard_count None FilterAll clock d
                   = dict_get (total_ciders d) 0)
  /\ (forall d, total_ciders d = None ->
                leaderboard_count None FilterCider clock d = 0
                /\ leaderboard_count None FilterAll clock d
                   = dict_get (total_beers d) 0).
Proof.
  split; [|split].
  - rewrite beer_leaderboard_reply.
    destruct (coll s) as [|d0 users] eqn:Ec.
    + split; [discriminate|]. now intros (d & [] & _).
    + destruct (leaderboard_rows_cases period drink_type clock (d0 :: users))
        as [(Hn & d & Hin & Hr & Hmiss) | (Hs & Hall)].
      * rewrite Hn. split; [|reflexivity]. intros _.
        apply ranked_iff in Hr. destruct Hr as [Hne Hpos].
        exists d. auto.
      * rewrite Hs. split.
        -- now destruct (py_slice_to _ limit).
        -- intros (d & Hin & Hne & Hpos & Hmiss). exfalso.
           destruct (Hall d Hin) as [Hb Hc].
           ++ apply ranked_iff. now split.
           ++ now destruct Hmiss.
  - intros d H. unfold leaderboard_count, stored_count. rewrite H.
    now split.
  - intros d H. unfold leaderboard_count, stored_count. rewrite H.
    split; [reflexivity|]. cbn [dict_get]. lia.
Qed.

(** ** The age worded by [/beer_last] *)

Ltac split_ltb :=
  repeat match goal with
         | |- context [?a <? ?b] =>
             let E := fresh "E" in
             destruct (a <? b) eqn:E;
             [apply Z.ltb_lt in E | apply Z.ltb_ge in E]
         end.

Lemma div_between (a k lo hi : Z) :
  0 < k -> lo * k <= a -> a < (hi + 1) * k -> lo <= a / k <= hi.
Proof.
  intros Hk Hlo Hhi. split.
  - now apply Z.div_le_lower_bound; [|rewrite Z.mul_comm].
  - apply Z.lt_succ_r. apply Z.div_lt_upper_bound; [exact Hk|].
    now rewrite Z.mul_comm.
Qed.

(** X1. A difference below one minute, a negative one included (an
    entry whose Prague time is ahead of now), is worded "just now".  From
    one minute on the number shown is never 0: minutes run from 1 to 59,
    hours from 1 to 23, days from 1 to 29, months from 1 to 12 and years
    from 1. *)
Theorem time_age_counts :
  (forall time_diff, time_diff < timedelta_minutes 1 ->
                     time_age time_diff = JustNow)
  /\ (forall time_diff,
         timedelta_minutes 1 <= time_diff ->
         exists n u,
           time_age time_diff = Ago n u
           /\ 1 <= n
           /\ match u with
              | AMinute => n <= 59
              | AHour => n <= 23
              | ADay => n <= 29
              | AMonth => n <= 12
              | AYear => True
              end).
Proof.
  split; intros time_diff H; unfold time_age.
  - apply Z.ltb_lt in H. now rewrite H.
  - unfold timedelta_minutes, timedelta_hours, timedelta_days, day_us in *.
    split_ltb; try lia; eexists; eexists; (split; [reflexivity|]).
    + apply (div_between time_diff (60 * 1000000) 1 59); lia.
    + apply (div_between time_diff (3600 * 1000000) 1 23); lia.
    + apply (div_between time_diff (86400 * 1000000) 1 29); lia.
    + pose proof (div_between time_diff 86400000000 30 364) as Hd.
      apply (div_between _ 30 1 12); lia.
    + pose proof (Z.div_le_lower_bound time_diff 86400000000 365) as Hd.
      split; [|exact I].
      apply Z.div_le_lower_bound; lia.
Qed.

(** X2. An older entry never reads younger: when one difference is at
    most another, its wording has a smaller unit, or the same unit and
    a number that is not greater. *)
Theorem time_age_monotone (d1 d2 : Z) :
  d1 <= d2 -> age_le (time_age d1) (time_age d2).
Proof.
  intros H. unfold time_age.
  unfold timedelta_minutes, timedelta_hours, timedelta_days, day_us in *.
  split_ltb; try lia; simpl; try exact I;
    try (left; lia);
    right; (split; [reflexivity|]);
    repeat (apply Z.div_le_mono; [lia|]); exact H.
Qed.

(** ** The pages of [/my_beers] *)

Lemma py_slice_nonneg {A : Type} (l : list A) (start limit : Z) :
  0 <= start -> 0 <= limit ->
  py_slice l start (start + limit)
  = firstn (Z.to_nat limit) (skipn (Z.to_nat start) l).
Proof.
  intros Hs Hl. unfold py_slice, py_index_clamp.
  replace (start <? 0) with false by (symmetry; apply Z.ltb_ge; lia).
  replace (start + limit <? 0) with false
    by (symmetry; apply Z.ltb_ge; lia).
  unfold len.
  destruct (Z.le_gt_cases start (Z.of_nat (List.length l))) as [Hin | Hout].
  - rewrite (Z.min_l start) by lia.
    destruct (Z.le_gt_cases (start + limit) (Z.of_nat (List.length l)))
      as [Hfull | Hpart].
    + rewrite Z.min_l by lia. f_equal. lia.
    + rewrite Z.min_r by lia.
      rewrite !firstn_all2; try reflexivity; rewrite length_skipn; lia.
  - rewrite !Z.min_r by lia. rewrite Z.sub_diag. cbn [Z.to_nat firstn].
    rewrite (skipn_all2 l) by lia. now rewrite firstn_nil.
Qed.

Lemma pages_concat {A : Type} (k : nat) (l : list A) (n : nat) :
  (List.length l <= n * k)%nat ->
  flat_map (fun p => firstn k (skipn (p * k) l)) (seq 0 n) = l.
Proof.
  revert l. induction n as [|n IH]; intros l Hlen.
  - destruct l; [reflexivity|simpl in Hlen; lia].
  - cbn [seq flat_map]. rewrite <- seq_shift, flat_map_concat_map, map_map.
    rewrite <- flat_map_concat_map.
    rewrite (flat_map_ext _ (fun p => firstn k (skipn (p * k) (skipn k l)))).
    + rewrite IH; [apply firstn_skipn|]. rewrite length_skipn. lia.
    + intros p. rewrite skipn_skipn. do 2 f_equal. lia.
Qed.

Lemma my_beers_shown (iu : discord_user) (limit page : Z)
  (drink_type : drink_filter) (s : db) (d : user_doc) :
  find (fun x => user_id x =? u_id iu) (coll s) = Some d ->
  beers d <> [] ->
  page <= (len (filter_drink_type drink_type (beers d)) + limit - 1) / limit ->
  fst (my_beers iu limit page drink_type s)
  = BeerPage
      (py_slice (sorted_reverse b_timestamp
                   (filter_drink_type drink_type (beers d)))
                ((page - 1) * limit) ((page - 1) * limit + limit))
      page
      ((len (filter_drink_type drink_type (beers d)) + limit - 1) / limit)
      (len (filter_drink_type drink_type (beers d))).
Proof.
  intros Hd Hne Hpage.
  unfold my_beers, bind, find_one_user, ret. cbn [fst]. rewrite Hd. cbn.
  destruct (beers d) as [|b bs] eqn:Eb; [congruence|].
  rewrite sorted_reverse_length.
  replace (page >? _) with false; [reflexivity|].
  symmetry. rewrite Z.gtb_ltb. now apply Z.ltb_ge.
Qed.

Lemma my_beers_refused (iu : discord_user) (limit page : Z)
  (drink_type : drink_filter) (s : db) (d : user_doc) :
  find (fun x => user_id x =? u_id iu) (coll s) = Some d ->
  beers d <> [] ->
  (len (filter_drink_type drink_type (beers d)) + limit - 1) / limit < page ->
  fst (my_beers iu limit page drink_type s)
  = PageDoesNotExist page
      ((len (filter_drink_type drink_type (beers d)) + limit - 1) / limit).
Proof.
  intros Hd Hne Hpage.
  unfold my_beers, bind, find_one_user, ret. cbn [fst]. rewrite Hd. cbn.
  destruct (beers d) as [|b bs] eqn:Eb; [congruence|].
  rewrite sorted_reverse_length.
  replace (page >? _) with true; [reflexivity|].
  symmetry. rewrite Z.gtb_ltb. now apply Z.ltb_lt.
Qed.

Lemma ceil_pages (n limit : Z) :
  0 <= n -> 1 <= limit ->
  ((n + limit - 1) / limit - 1) * limit < n <= (n + limit - 1) / limit * limit.
Proof.
  intros Hn Hlimit.
  pose proof (Z.div_mod (n + limit - 1) limit ltac:(lia)) as Hdm.
  pose proof (Z.mod_pos_bound (n + limit - 1) limit ltac:(lia)) as Hmod.
  nia.
Qed.

(** X3. The pages of a listing, read from page 1 to the last one with
    the same page size and drink type, hold every entry of the sorted
    selection once, in its order: nothing is skipped and nothing is
    shown twice. *)
Theorem my_beers_pages_cover (iu : discord_user) (limit : Z)
  (drink_type : drink_filter) (s : db) (d : user_doc) :
  1 <= limit ->
  find (fun x => user_id x =? u_id iu) (coll s) = Some d ->
  beers d <> [] ->
  flat_map
    (fun p => page_items (fst (my_beers iu limit (Z.of_nat p) drink_type s)))
    (seq 1 (Z.to_nat ((len (filter_drink_type drink_type (beers d))
                       + limit - 1) / limit)))
  = sorted_reverse b_timestamp (filter_drink_type drink_type (beers d)).
Proof.
  intros Hlimit Hd Hne.
  set (bs := filter_drink_type drink_type (beers d)).
  set (all := sorted_reverse b_timestamp bs).
  pose proof (ceil_pages (len bs) limit (len_nonneg bs) Hlimit) as Hceil.
  set (tp := (len bs + limit - 1) / limit) in *.
  assert (Htp : 0 <= tp) by (apply Z.div_pos; pose proof (len_nonneg bs); lia).
  assert (Hcat : flat_map (fun p => firstn (Z.to_nat limit)
                                      (skipn (p * Z.to_nat limit) all))
                          (seq 0 (Z.to_nat tp)) = all).
  { apply pages_concat.
    pose proof (sorted_reverse_length b_timestamp bs) as Hlen.
    fold all in Hlen. unfold len in *. nia. }
  rewrite <- Hcat at 1.
  rewrite <- seq_shift, !flat_map_concat_map, map_map. f_equal.
  apply map_ext_in. intros q Hq. apply in_seq in Hq.
  rewrite (my_beers_shown iu limit _ drink_type s d Hd Hne)
    by (fold bs tp; lia).
  cbn [page_items]. fold bs all.
  rewrite py_slice_nonneg by lia. do 2 f_equal. lia.
Qed.

(** X4. A page that is shown is never empty: with a page size of at
    least 1, page [page] of [total_pages] holds the page size or, when
    fewer are left from its start, the rest of the selection, and in
    both cases at least one entry. *)
Theorem my_beers_page_size (iu : discord_user) (limit page : Z)
  (drink_type : drink_filter) (s : db) (d : user_doc) :
  1 <= limit -> 1 <= page ->
  find (fun x => user_id x =? u_id iu) (coll s) = Some d ->
  beers d <> [] ->
  page <= (len (filter_drink_type drink_type (beers d)) + limit - 1) / limit ->
  len (page_items (fst (my_beers iu limit page drink_type s)))
  = Z.min limit (len (filter_drink_type drink_type (beers d))
                 - (page - 1) * limit)
  /\ 1 <= len (page_items (fst (my_beers iu limit page drink_type s))).
Proof.
  intros Hlimit Hpage Hd Hne Hshown.
  set (bs := filter_drink_type drink_type (beers d)) in *.
  pose proof (ceil_pages (len bs) limit (len_nonneg bs) Hlimit) as Hceil.
  rewrite (my_beers_shown iu limit page drink_type s d Hd Hne Hshown).
  cbn [page_items]. fold bs.
  rewrite py_slice_nonneg by nia.
  pose proof (sorted_reverse_length b_timestamp bs) as Hlen.
  assert (Hsize : len (firstn (Z.to_nat limit)
                         (skipn (Z.to_nat ((page - 1) * limit))
                                (sorted_reverse b_timestamp bs)))
                  = Z.min limit (len bs - (page - 1) * limit)).
  { unfold len in *. rewrite length_firstn, length_skipn. nia. }
  rewrite Hsize. split; [reflexivity|]. nia.
Qed.

(** X5. The footer of a shown page offers the next page exactly when
    entries are left behind the page, and the previous page exactly when
    the page is not the first; a page it offers, asked for with the same
    page size and drink type, is shown and not refused. *)
Theorem my_beers_footer_leads_on (iu : discord_user) (limit page : Z)
  (drink_type : drink_filter) (s : db) (d : user_doc) (e : beers_embed) :
  1 <= limit -> 1 <= page ->
  find (fun x => user_id x =? u_id iu) (coll s) = Some d ->
  beers d <> [] ->
  my_beers_embed (fst (my_beers iu limit page drink_type s)) = Some e ->
  (forall part, In part (e_footer e) ->
                part = Previous (page - 1) \/ part = Next (page + 1))
  /\ (In (Next (page + 1)) (e_footer e)
      <-> page * limit < len (filter_drink_type drink_type (beers d)))
  /\ (In (Previous (page - 1)) (e_footer e) <-> 1 < page)
  /\ (forall p, In (Next p) (e_footer e) \/ In (Previous p) (e_footer e) ->
                exists e',
                  my_beers_embed (fst (my_beers iu limit p drink_type s))
                  = Some e'
                  /\ e_page e' = p).
Proof.
  intros Hlimit Hpage Hd Hne He.
  set (bs := filter_drink_type drink_type (beers d)) in *.
  pose proof (ceil_pages (len bs) limit (len_nonneg bs) Hlimit) as Hceil.
  set (tp := (len bs + limit - 1) / limit) in *.
  destruct (Z.lt_ge_cases tp page) as [Hout | Hin].
  { rewrite (my_beers_refused iu limit page drink_type s d Hd Hne) in He
      by (fold bs tp; exact Hout). discriminate. }
  rewrite (my_beers_shown iu limit page drink_type s d Hd Hne) in He
    by (fold bs tp; exact Hin).
  fold bs tp in He. cbn [my_beers_embed] in He. injection He as <-.
  cbn [e_footer]. unfold footer_parts.
  assert (Hfoot : forall part,
             In part ((if page >? 1 then [Previous (page - 1)] else [])
                      ++ (if page <? tp then [Next (page + 1)] else []))
             <-> (part = Previous (page - 1) /\ 1 < page)
                 \/ (part = Next (page + 1) /\ page < tp)).
  { intros part. rewrite in_app_iff.
    destruct (page >? 1) eqn:E1; destruct (page <? tp) eqn:E2;
      rewrite ?Z.gtb_ltb in E1;
      rewrite ?Z.ltb_lt, ?Z.ltb_ge in E1, E2; simpl;
      intuition (try congruence; try lia). }
  split; [|split; [|split]].
  - intros part Hp. apply Hfoot in Hp. tauto.
  - rewrite Hfoot. split.
    + intros [[Hc _] | [_ Hlt]]; [discriminate|nia].
    + intros Hlt. right. split; [reflexivity|nia].
  - rewrite Hfoot. split.
    + intros [[_ Hlt] | [Hc _]]; [exact Hlt|discriminate].
    + intros Hlt. left. now split.
  - intros p Hp.
    assert (Hp' : 1 <= p <= tp).
    { destruct Hp as [Hp | Hp]; apply Hfoot in Hp;
        destruct Hp as [[Hc Hb] | [Hc Hb]]; try discriminate;
        injection Hc as ->; lia. }
    rewrite (my_beers_shown iu limit p drink_type s d Hd Hne)
      by (fold bs tp; lia).
    cbn [my_beers_embed]. eexists. split; reflexivity.
Qed.

Lemma emoji_of_field (b : beer) :
  f_emoji (beer_field_of b) = if is_cider b then "🍎"%string else "🍺"%string.
Proof.
  unfold beer_field_of, get_drink_emoji, is_cider. cbn [f_emoji].
  destruct (b_type b) as [[|t]|]; cbn [dict_get py_eq_str]; try reflexivity.
  destruct (String.eqb t "beer") eqn:Eb; [|reflexivity].
  apply String.eqb_eq in Eb. now subst t.
Qed.

(** X6. The emoji of a listed entry is the apple exactly for the
    entries the cider filter keeps, and the beer mug for all others,
    those without a type or with an unknown one included: a page of
    ciders shows only apples, a page of beers only mugs. *)
Theorem my_beers_emoji_follows_filter (iu : discord_user) (limit page : Z)
  (drink_type : drink_filter) (s : db) (e : beers_embed) :
  my_beers_embed (fst (my_beers iu limit page drink_type s)) = Some e ->
  Forall (fun f => exists b,
              f = beer_field_of b
              /\ (is_cider b = true -> f_emoji f = "🍎"%string)
              /\ (is_cider b = false -> f_emoji f = "🍺"%string))
         (e_fields e)
  /\ (drink_type = FilterCider ->
      Forall (fun f => f_emoji f = "🍎"%string) (e_fields e))
  /\ (drink_type = FilterBeer ->
      Forall (fun f => f_emoji f = "🍺"%string) (e_fields e)).
Proof.
  unfold my_beers, bind, find_one_user, ret. cbn [fst].
  destruct (find _ (coll s)) as [d|]; [|discriminate]. cbn.
  destruct (beers d) as [|b0 bs0]; [discriminate|].
  destruct (page >? _); [discriminate|].
  cbn [my_beers_embed]. intros He. injection He as <-. cbn [e_fields].
  set (bs := filter_drink_type drink_type (b0 :: bs0)).
  assert (Hin : forall b,
             In b (py_slice (sorted_reverse b_timestamp bs)
                            ((page - 1) * limit)
                            ((page - 1) * limit + limit)) ->
             In b bs).
  { intros b Hb. apply py_slice_incl in Hb.
    now apply (Permutation_in _ (sorted_reverse_perm b_timestamp bs)) in Hb. }
  split; [|split].
  - apply Forall_forall. intros f Hf. apply in_map_iff in Hf.
    destruct Hf as (b & <- & _). exists b.
    rewrite emoji_of_field. split; [reflexivity|].
    split; now intros ->.
  - intros Hdt. apply Forall_forall. intros f Hf. apply in_map_iff in Hf.
    destruct Hf as (b & <- & Hb). apply Hin in Hb. unfold bs in Hb.
    rewrite Hdt in Hb. cbn [filter_drink_type] in Hb.
    apply filter_In in Hb. rewrite emoji_of_field. now rewrite (proj2 Hb).
  - intros Hdt. apply Forall_forall. intros f Hf. apply in_map_iff in Hf.
    destruct Hf as (b & <- & Hb). apply Hin in Hb. unfold bs in Hb.
    rewrite Hdt in Hb. cbn [filter_drink_type] in Hb.
    apply filter_In in Hb. rewrite emoji_of_field.
    now rewrite (beer_not_cider b (proj2 Hb)).
Qed.

(** ** Counts of [/beer_stats] and of the board *)

Lemma filter_length_impl {A : Type} (f g : A -> bool) (l : list A) :
  (forall x, f x = true -> g x = true) ->
  len (filter f l) <= len (filter g l).
Proof.
  intros Himp. induction l as [|x l IH]; [reflexivity|]. cbn [filter].
  destruct (f x) eqn:Ef.
  - rewrite (Himp x Ef), !len_cons. lia.
  - destruct (g x); rewrite ?len_cons; lia.
Qed.

Lemma filter_length_le {A : Type} (f : A -> bool) (l : list A) :
  len (filter f l) <= len l.
Proof.
  induction l as [|x l IH]; [reflexivity|]. cbn [filter].
  destruct (f x); rewrite ?len_cons; lia.
Qed.

Lemma since_antitone (c1 c2 : Z) (bs : list beer) :
  c1 <= c2 -> len (since c2 bs) <= len (since c1 bs).
Proof.
  intros H. apply filter_length_impl. intros b.
  rewrite !Z.geb_leb, !Z.leb_le. lia.
Qed.

Lemma stored_count_counts (drink_type : drink_filter) (d : user_doc) :
  counters_match d ->
  stored_count drink_type d = len (filter_drink_type drink_type (beers d)).
Proof.
  intros (Hb & Hc & Hsum). unfold stored_count. rewrite Hb, Hc.
  destruct drink_type; cbn [dict_get filter_drink_type]; [exact Hsum| |];
    reflexivity.
Qed.

Lemma beer_stats_reply (iu : discord_user) (user : option discord_user)
  (period : option period_lit) (drink_type : drink_filter) (clock : Z)
  (s : db) (d : user_doc) :
  find (fun x => user_id x =? u_id (target_of iu user)) (coll s) = Some d ->
  beers d <> [] ->
  fst (beer_stats iu user period drink_type clock s)
  = Stats match period with
          | Some p => len (since (stats_cutoff p (now_prague clock))
                                 (filter_drink_type drink_type (beers d)))
          | None => stored_count drink_type d
          end.
Proof.
  intros Hd Hne. unfold beer_stats, bind, find_one_user, ret. cbn [fst].
  rewrite Hd. cbn. destruct (beers d) as [|b bs]; [congruence|].
  now destruct period.
Qed.

(** X7. For a document whose counters match its entries, [/beer_stats]
    without a period reports, from the counters, exactly the number of
    entries the drink type selects. *)
Theorem beer_stats_all_time_counts (iu : discord_user)
  (user : option discord_user) (drink_type : drink_filter) (clock : Z)
  (s : db) (d : user_doc) :
  find (fun x => user_id x =? u_id (target_of iu user)) (coll s) = Some d ->
  beers d <> [] ->
  counters_match d ->
  fst (beer_stats iu user None drink_type clock s)
  = Stats (len (filter_drink_type drink_type (beers d))).
Proof.
  intros Hd Hne Hm.
  rewrite (beer_stats_reply iu user None drink_type clock s d Hd Hne).
  now rewrite stored_count_counts.
Qed.

(** X8. For a user with entries, [/beer_stats] reports a count for
    every period, the count of a longer period is never smaller than
    that of a shorter one at the same clock, and with matching counters
    no period count exceeds the count reported without a period. *)
Theorem beer_stats_longer_period_counts_more (iu : discord_user)
  (user : option discord_user) (p p' : period_lit)
  (drink_type : drink_filter) (clock : Z) (s : db) (d : user_doc) :
  find (fun x => user_id x =? u_id (target_of iu user)) (coll s) = Some d ->
  beers d <> [] ->
  period_span p <= period_span p' ->
  exists c c',
    fst (beer_stats iu user (Some p) drink_type clock s) = Stats c
    /\ fst (beer_stats iu user (Some p') drink_type clock s) = Stats c'
    /\ 0 <= c <= c'
    /\ (counters_match d ->
        exists c0,
          fst (beer_stats iu user None drink_type clock s) = Stats c0
          /\ c' <= c0).
Proof.
  intros Hd Hne Hspan.
  rewrite !(beer_stats_reply iu user _ drink_type clock s d Hd Hne).
  eexists. eexists. split; [reflexivity|]. split; [reflexivity|].
  split; [split; [apply len_nonneg|]|].
  - apply since_antitone. rewrite !stats_cutoff_words. lia.
  - intros Hm. eexists. split; [reflexivity|].
    rewrite stored_count_counts by exact Hm. apply filter_length_le.
Qed.

Lemma find_by_key (c : list user_doc) (d : user_doc) :
  NoDup (map user_id c) -> In d c ->
  find (fun x => user_id x =? user_id d) c = Some d.
Proof.
  induction c as [|y c IH]; intros Hnd Hin; [contradiction|].
  inversion Hnd as [|? ? Hy Hc]; subst. cbn [find].
  destruct Hin as [-> | Hin].
  - now rewrite Z.eqb_refl.
  - destruct (user_id y =? user_id d) eqn:E; [|now apply IH].
    exfalso. apply Z.eqb_eq in E. apply Hy. rewrite E. now apply in_map.
Qed.

Lemma board_rows (period : option period_lit) (limit : Z)
  (drink_type : drink_filter) (clock : Z) (s : db) (board : list row) :
  fst (beer_leaderboard period limit drink_type clock s) = Board board ->
  board
  = py_slice_to
      (sorted_reverse r_count
         (map (row_of period drink_type clock)
              (filter (ranked period drink_type clock) (coll s))))
      limit.
Proof.
  rewrite beer_leaderboard_reply.
  destruct (coll s) as [|d0 users]; [discriminate|].
  destruct (leaderboard_rows_cases period drink_type clock (d0 :: users))
    as [(Hn & _) | (Hs & _)]; rewrite ?Hn, ?Hs; [discriminate|].
  destruct (py_slice_to _ limit); [discriminate|]. now intros [= <-].
Qed.

Lemma board_row_source (period : option period_lit) (limit : Z)
  (drink_type : drink_filter) (clock : Z) (s : db) (board : list row)
  (r : row) :
  fst (beer_leaderboard period limit drink_type clock s) = Board board ->
  In r board ->
  exists d, In d (coll s)
            /\ ranked period drink_type clock d = true
            /\ r = row_of period drink_type clock d.
Proof.
  intros Hb Hr. apply board_rows in Hb. subst board.
  apply py_slice_incl in Hr.
  apply (Permutation_in _ (sorted_reverse_perm r_count _)) in Hr.
  apply in_map_iff in Hr. destruct Hr as (d & <- & Hin).
  apply filter_In in Hin. exists d. tauto.
Qed.

(** X9. In a collection where user ids are keys, the count of every row
    of the board is what [/beer_stats] reports for that user with the
    same period, drink type and clock, except for the period "day",
    where the board counts from midnight and shows at most the count
    of the last 24 hours. *)
Theorem board_agrees_with_stats (period : option period_lit) (limit : Z)
  (drink_type : drink_filter) (clock : Z) (s : db) (board : list row)
  (r : row) :
  NoDup (map user_id (coll s)) ->
  fst (beer_leaderboard period limit drink_type clock s) = Board board ->
  In r board ->
  exists c,
    fst (beer_stats (mk_discord_user (r_user_id r) (r_username r)) None
                    period drink_type clock s) = Stats c
    /\ r_count r <= c
    /\ (period <> Some Day -> r_count r = c).
Proof.
  intros Hkeys Hb Hr.
  destruct (board_row_source _ _ _ _ _ _ _ Hb Hr) as (d & Hin & Hrk & ->).
  apply ranked_iff in Hrk. destruct Hrk as [Hne _].
  rewrite (beer_stats_reply _ None period drink_type clock s d);
    [|cbn; now apply find_by_key|exact Hne].
  eexists. split; [reflexivity|].
  unfold row_of, leaderboard_count. cbn [r_count].
  destruct period as [p|]; [|split; [lia|reflexivity]].
  destruct p; cbn [leaderboard_cutoff stats_cutoff];
    try (split; [lia|reflexivity]).
  split.
  - apply since_antitone. unfold replace_midnight, timedelta_days.
    pose proof (Z.mod_pos_bound (now_prague clock) day_us
                  ltac:(reflexivity)).
    lia.
  - congruence.
Qed.

Lemma kept_keys_distinct (keep : user_doc -> bool) (c : list user_doc) :
  NoDup (map user_id c) -> NoDup (map user_id (filter keep c)).
Proof.
  intros Hkeys. induction c as [|y c IH]; [constructor|].
  inversion Hkeys as [|? ? Hy Hc]; subst. cbn [filter].
  destruct (keep y); [|now apply IH].
  cbn [map]. constructor; [|now apply IH].
  intros Hin. apply Hy. apply in_map_iff in Hin.
  destruct Hin as (x & Hx & Hin). apply filter_In in Hin.
  rewrite <- Hx. apply in_map. tauto.
Qed.

Lemma NoDup_firstn {A : Type} (n : nat) (l : list A) :
  NoDup l -> NoDup (firstn n l).
Proof.
  intros Hnd. rewrite <- (firstn_skipn n l) in Hnd.
  now apply NoDup_app_remove_r in Hnd.
Qed.

(** X10. In a collection where user ids are keys, no user stands twice
    on the board, and the board is not longer than [limit]. *)
Theorem board_no_user_twice (period : option period_lit) (limit : Z)
  (drink_type : drink_filter) (clock : Z) (s : db) (board : list row) :
  NoDup (map user_id (coll s)) ->
  0 <= limit ->
  fst (beer_leaderboard period limit drink_type clock s) = Board board ->
  NoDup (map r_user_id board) /\ len board <= limit.
Proof.
  intros Hkeys Hlimit Hb. apply board_rows in Hb. subst board.
  rewrite py_slice_to_firstn by exact Hlimit. split.
  - rewrite <- firstn_map. apply NoDup_firstn.
    eapply Permutation_NoDup.
    + apply Permutation_map. symmetry. apply sorted_reverse_perm.
    + rewrite map_map. cbn [row_of r_user_id].
      now apply kept_keys_distinct.
  - match goal with
    | |- len (firstn ?n ?l) <= _ => pose proof (firstn_le_length n l)
    end.
    unfold len. lia.
Qed.

(** ** What [/beer] and [/beer_delete] leave behind *)

Lemma find_replace_first (uid : Z) (doc : user_doc) (c : list user_doc) :
  user_id doc = uid ->
  find (fun x => user_id x =? uid) (replace_first uid doc c) = Some doc.
Proof.
  intros Hdoc. induction c as [|y c IH]; cbn [replace_first find].
  - subst uid. now rewrite Z.eqb_refl.
  - destruct (user_id y =? uid) eqn:E; cbn [find].
    + subst uid. now rewrite Z.eqb_refl.
    + now rewrite E.
Qed.

Lemma replace_first_others (uid : Z) (doc : user_doc) (c : list user_doc) :
  user_id doc = uid ->
  filter (fun x => negb (user_id x =? uid)) (replace_first uid doc c)
  = filter (fun x => negb (user_id x =? uid)) c.
Proof.
  intros Hdoc. induction c as [|y c IH]; cbn [replace_first filter].
  - subst uid. now rewrite Z.eqb_refl.
  - destruct (user_id y =? uid) eqn:E; cbn [filter].
    + subst uid. now rewrite Z.eqb_refl.
    + rewrite E. cbn [negb]. now rewrite IH.
Qed.

Lemma replace_first_length (uid : Z) (doc : user_doc) (c : list user_doc) :
  len (replace_first uid doc c)
  = len c + match find (fun x => user_id x =? uid) c with
            | Some _ => 0
            | None => 1
            end.
Proof.
  induction c as [|y c IH]; cbn [replace_first find]; [reflexivity|].
  destruct (user_id y =? uid); rewrite ?len_cons; lia.
Qed.

Lemma find_beer_replace_first (beer_uuid : string) (uid : Z)
  (doc : user_doc) (c : list user_doc) :
  (forall x, In x c -> has_beer beer_uuid x = false) ->
  has_beer beer_uuid doc = true ->
  find (has_beer beer_uuid) (replace_first uid doc c) = Some doc.
Proof.
  intros Hfresh Hdoc. induction c as [|y c IH]; cbn [replace_first find].
  - now rewrite Hdoc.
  - destruct (user_id y =? uid); cbn [find].
    + now rewrite Hdoc.
    + rewrite (Hfresh y (or_introl eq_refl)). apply IH.
      intros x Hx. apply Hfresh. now right.
Qed.

Lemma find_set_first (uid : Z) (bs : list beer) (tb tc : Z)
  (c : list user_doc) :
  find (fun x => user_id x =? uid) (set_first uid bs tb tc c)
  = option_map
      (fun d => mk_user_doc (user_id d) (username d) bs (Some tb) (Some tc))
      (find (fun x => user_id x =? uid) c).
Proof.
  induction c as [|y c IH]; [reflexivity|]. cbn [set_first find].
  destruct (user_id y =? uid) eqn:E; cbn [find user_id]; rewrite E;
    [reflexivity|exact IH].
Qed.

Lemma set_first_others (uid : Z) (bs : list beer) (tb tc : Z)
  (c : list user_doc) :
  filter (fun x => negb (user_id x =? uid)) (set_first uid bs tb tc c)
  = filter (fun x => negb (user_id x =? uid)) c.
Proof.
  induction c as [|y c IH]; [reflexivity|]. cbn [set_first filter].
  destruct (user_id y =? uid) eqn:E; cbn [filter user_id]; rewrite E;
    cbn [negb]; [reflexivity|now rewrite IH].
Qed.

Lemma set_first_length (uid : Z) (bs : list beer) (tb tc : Z)
  (c : list user_doc) :
  len (set_first uid bs tb tc c) = len c.
Proof.
  induction c as [|y c IH]; [reflexivity|]. cbn [set_first].
  destruct (user_id y =? uid); rewrite !len_cons; lia.
Qed.

Lemma fresh_filter_id (beer_uuid : string) (bs : list beer) :
  existsb (fun b => String.eqb (b_id b) beer_uuid) bs = false ->
  filter (fun b => negb (String.eqb (b_id b) beer_uuid)) bs = bs.
Proof.
  induction bs as [|b bs IH]; [reflexivity|]. cbn [existsb filter].
  intros H. apply orb_false_elim in H. destruct H as [Hb Hbs].
  rewrite Hb. cbn [negb]. now rewrite IH.
Qed.

(** The document [/beer] writes, and the reply it sends. *)
Lemma log_beer_effect (iu : discord_user) (user : option discord_user)
  (drink_type : pyval) (beer_id : string) (current_time : Z) (s : db) :
  exists doc,
    log_beer iu user drink_type beer_id current_time s
    = (if py_eq_str drink_type "beer"
       then match total_beers doc with
            | Some n => SaidBeers n
            | None => LogKeyError
            end
       else if py_eq_str drink_type "cider"
       then match total_ciders doc with
            | Some n => SaidCiders n
            | None => LogKeyError
            end
       else match total_beers doc with
            | Some n => SaidBeers n
            | None => LogKeyError
            end,
       mk_db (replace_first (u_id (target_of iu user)) doc (coll s))
             (calls s ++ [CallFindOneUser (u_id (target_of iu user))]
                     ++ [CallReplaceOne (u_id (target_of iu user))]))
    /\ user_id doc = u_id (target_of iu user)
    /\ username doc = u_name (target_of iu user)
    /\ beers doc
       = match find (fun x => user_id x =? u_id (target_of iu user))
                    (coll s) with
         | Some d => beers d
         | None => []
         end ++ [mk_beer beer_id current_time (Some drink_type)].
Proof.
  unfold log_beer, bind, find_one_user, replace_one, ret, called.
  cbn [coll calls]. rewrite <- app_assoc.
  eexists. split; [reflexivity|]. cbn [user_id username beers].
  destruct (find _ (coll s)) as [d|] eqn:Ef; cbn [user_id beers].
  - apply find_some in Ef. destruct Ef as [_ Hu]. apply Z.eqb_eq in Hu.
    now repeat split.
  - now repeat split.
Qed.

Lemma is_beer_logged (beer_id : string) (current_time : Z)
  (drink_type : pyval) :
  is_beer (mk_beer beer_id current_time (Some drink_type))
  = py_eq_str drink_type "beer"
  /\ is_cider (mk_beer beer_id current_time (Some drink_type))
     = py_eq_str drink_type "cider".
Proof. split; reflexivity. Qed.

(** X11. Right after a [/beer], [/beer_last] for the same user shows
    the entry just logged: with all drink types in every case, and with
    the filter of its own type when it is a beer or a cider. *)
Theorem log_beer_then_last (iu : discord_user) (user : option discord_user)
  (drink_type : pyval) (beer_id : string) (current_time : Z) (s : db)
  (shown : drink_filter) :
  shown = FilterAll
  \/ (shown = FilterBeer /\ drink_type = PyStr "beer")
  \/ (shown = FilterCider /\ drink_type = PyStr "cider") ->
  fst (beer_last iu user shown
         (snd (log_beer iu user drink_type beer_id current_time s)))
  = LastBeer (mk_beer beer_id current_time (Some drink_type))
             (ts_to_prague_time current_time).
Proof.
  intros Hshown.
  destruct (log_beer_effect iu user drink_type beer_id current_time s)
    as (doc & -> & Hid & _ & Hbeers).
  unfold beer_last, bind, find_one_user, ret. cbn [fst snd coll called].
  rewrite (find_replace_first _ _ _ Hid). cbn. rewrite Hbeers.
  set (old := match find _ (coll s) with Some d => beers d | None => [] end).
  destruct (old ++ [mk_beer beer_id current_time (Some drink_type)])
    as [|b bs] eqn:E; [now destruct old|]. rewrite <- E.
  assert (Hlast : py_last (filter_drink_type shown
                     (old ++ [mk_beer beer_id current_time (Some drink_type)]))
                  = Some (mk_beer beer_id current_time (Some drink_type))).
  { destruct Hshown as [-> | [[-> ->] | [-> ->]]]; cbn [filter_drink_type].
    - apply py_last_snoc.
    - rewrite filter_app. cbn. apply py_last_snoc.
    - rewrite filter_app. cbn. apply py_last_snoc. }
  now rewrite Hlast.
Qed.

(** X12. [/beer] writes one document and no other: the documents of the
    other users are the same, in the same order, afterwards; the
    collection grows by one document exactly when the user had none; and
    the user's document then carries the current name and the old
    entries followed by the new one. *)
Theorem log_beer_touches_one_document (iu : discord_user)
  (user : option discord_user) (drink_type : pyval) (beer_id : string)
  (current_time : Z) (s : db) :
  filter (fun x => negb (user_id x =? u_id (target_of iu user)))
         (coll (snd (log_beer iu user drink_type beer_id current_time s)))
  = filter (fun x => negb (user_id x =? u_id (target_of iu user))) (coll s)
  /\ len (coll (snd (log_beer iu user drink_type beer_id current_time s)))
     = len (coll s)
       + match find (fun x => user_id x =? u_id (target_of iu user))
                    (coll s) with
         | Some _ => 0
         | None => 1
         end
  /\ exists doc,
      find (fun x => user_id x =? u_id (target_of iu user))
           (coll (snd (log_beer iu user drink_type beer_id current_time s)))
      = Some doc
      /\ username doc = u_name (target_of iu user)
      /\ beers doc
         = match find (fun x => user_id x =? u_id (target_of iu user))
                      (coll s) with
           | Some d => beers d
           | None => []
           end ++ [mk_beer beer_id current_time (Some drink_type)].
Proof.
  destruct (log_beer_effect iu user drink_type beer_id current_time s)
    as (doc & -> & Hid & Hname & Hbeers).
  cbn [snd coll]. split; [now apply replace_first_others|].
  split; [apply replace_first_length|].
  exists doc. split; [now apply find_replace_first|]. now split.
Qed.

(** X13. When the counters of the store match and a beer or a cider is
    logged, the total the reply announces is the number of entries of
    that type the user's document holds after the write. *)
Theorem log_beer_announces_count (iu : discord_user)
  (user : option discord_user) (drink_type : pyval) (beer_id : string)
  (current_time : Z) (s : db) :
  store_counters_match s ->
  drink_type = PyStr "beer" \/ drink_type = PyStr "cider" ->
  exists doc,
    find (fun x => user_id x =? u_id (target_of iu user))
         (coll (snd (log_beer iu user drink_type beer_id current_time s)))
    = Some doc
    /\ fst (log_beer iu user drink_type beer_id current_time s)
       = if py_eq_str drink_type "beer"
         then SaidBeers (len (filter is_beer (beers doc)))
         else SaidCiders (len (filter is_cider (beers doc))).
Proof.
  intros Hs Hdt.
  pose proof (log_beer_keeps iu user drink_type beer_id current_time s Hs Hdt)
    as Hkept.
  destruct (log_beer_effect iu user drink_type beer_id current_time s)
    as (doc & E & Hid & _ & _).
  rewrite E in *. cbn [fst snd coll] in *.
  exists doc. split; [now apply find_replace_first|].
  assert (Hm : counters_match doc).
  { eapply find_some_Forall; [exact Hkept|].
    now apply find_replace_first. }
  destruct Hm as (Hb & Hc & _). rewrite Hb, Hc.
  now destruct Hdt as [-> | ->].
Qed.

Lemma find_of_existsb {A : Type} (p : A -> bool) (l : list A) :
  existsb p l = true -> exists x, find p l = Some x.
Proof.
  induction l as [|y l IH]; [discriminate|]. cbn [existsb find].
  destruct (p y); [now exists y|exact IH].
Qed.

Lemma find_snoc_fresh {A : Type} (p : A -> bool) (l : list A) (x : A) :
  existsb p l = false -> p x = true -> find p (l ++ [x]) = Some x.
Proof.
  induction l as [|y l IH]; cbn [existsb app find]; intros Hl Hx.
  - now rewrite Hx.
  - apply orb_false_elim in Hl. destruct Hl as [Hy Hl]. rewrite Hy.
    now apply IH.
Qed.

(** The write of a [/beer_delete] that passes its three checks. *)
Lemma beer_delete_effect (iu : discord_user) (beer_uuid : string) (s : db)
  (d : user_doc) :
  uuid_parses beer_uuid = true ->
  find (has_beer beer_uuid) (coll s) = Some d ->
  user_id d = u_id iu ->
  exists deleted_beer,
    find (fun b => String.eqb (b_id b) beer_uuid) (beers d)
    = Some deleted_beer
    /\ beer_delete iu beer_uuid s
       = (Deleted deleted_beer,
          mk_db
            (set_first (user_id d)
               (filter (fun b => negb (String.eqb (b_id b) beer_uuid))
                       (beers d))
               (len (filter is_beer
                       (filter (fun b => negb (String.eqb (b_id b) beer_uuid))
                               (beers d))))
               (len (filter is_cider
                       (filter (fun b => negb (String.eqb (b_id b) beer_uuid))
                               (beers d))))
               (coll s))
            ((calls s ++ [CallFindOneBeer beer_uuid])
             ++ [CallUpdateOne (user_id d)])).
Proof.
  intros Hu Hd Hown.
  assert (Hhas : has_beer beer_uuid d = true)
    by (apply find_some in Hd; tauto).
  destruct (find_of_existsb _ _ Hhas) as (b & Hb).
  exists b. split; [exact Hb|].
  unfold beer_delete, bind, find_one_beer, update_one, ret, called.
  rewrite Hu. cbn [negb coll calls]. rewrite Hd, Hown, Z.eqb_refl.
  cbn [negb]. now rewrite Hb.
Qed.

(** X14. A [/beer_delete] by the owner, in a collection where user ids
    are keys, replies with an entry of the owner's list that carries the
    id, leaves the owner's document with its name, with exactly the
    entries of another id in their order and with counters recounted
    from them, and leaves every other document, and the number of
    documents, as it was. *)
Theorem beer_delete_removes_the_entry (iu : discord_user)
  (beer_uuid : string) (s : db) (d : user_doc) :
  uuid_parses beer_uuid = true ->
  NoDup (map user_id (coll s)) ->
  find (has_beer beer_uuid) (coll s) = Some d ->
  user_id d = u_id iu ->
  exists deleted_beer,
    fst (beer_delete iu beer_uuid s) = Deleted deleted_beer
    /\ b_id deleted_beer = beer_uuid
    /\ In deleted_beer (beers d)
    /\ find (fun x => user_id x =? u_id iu)
            (coll (snd (beer_delete iu beer_uuid s)))
       = Some (mk_user_doc (user_id d) (username d)
                 (filter (fun b => negb (String.eqb (b_id b) beer_uuid))
                         (beers d))
                 (Some (len (filter is_beer
                          (filter (fun b => negb (String.eqb (b_id b) beer_uuid))
                                  (beers d)))))
                 (Some (len (filter is_cider
                          (filter (fun b => negb (String.eqb (b_id b) beer_uuid))
                                  (beers d))))))
    /\ filter (fun x => negb (user_id x =? u_id iu))
              (coll (snd (beer_delete iu beer_uuid s)))
       = filter (fun x => negb (user_id x =? u_id iu)) (coll s)
    /\ len (coll (snd (beer_delete iu beer_uuid s))) = len (coll s).
Proof.
  intros Hu Hkeys Hd Hown.
  destruct (beer_delete_effect iu beer_uuid s d Hu Hd Hown)
    as (b & Hb & ->).
  exists b. cbn [fst snd coll]. split; [reflexivity|].
  apply find_some in Hb. destruct Hb as [Hin Hid].
  split; [now apply String.eqb_eq|]. split; [exact Hin|].
  rewrite <- Hown. split; [|split].
  - rewrite find_set_first, find_by_key; [reflexivity|exact Hkeys|].
    apply find_some in Hd. tauto.
  - apply set_first_others.
  - apply set_first_length.
Qed.

(** X15. A [/beer] with an id new to the store followed by the
    [/beer_delete] of that id by the user it was logged for replies with
    the entry just logged and, when the counters of the store matched,
    puts the user's entries and counters back to what they were (an
    empty document with zero counters for a user who had none); only the
    name is the current one.  The other documents are untouched. *)
Theorem log_then_delete_restores (iu : discord_user)
  (user : option discord_user) (drink_type : pyval) (beer_id : string)
  (current_time : Z) (s : db) :
  uuid_parses beer_id = true ->
  (forall x, In x (coll s) -> has_beer beer_id x = false) ->
  store_counters_match s ->
  fst (beer_delete (target_of iu user) beer_id
         (snd (log_beer iu user drink_type beer_id current_time s)))
  = Deleted (mk_beer beer_id current_time (Some drink_type))
  /\ find (fun x => user_id x =? u_id (target_of iu user))
          (coll (snd (beer_delete (target_of iu user) beer_id
                   (snd (log_beer iu user drink_type beer_id current_time
                                  s)))))
     = Some match find (fun x => user_id x =? u_id (target_of iu user))
                       (coll s) with
            | Some d => mk_user_doc (user_id d) (u_name (target_of iu user))
                                    (beers d) (total_beers d) (total_ciders d)
            | None => mk_user_doc (u_id (target_of iu user))
                                  (u_name (target_of iu user)) []
                                  (Some 0) (Some 0)
            end
  /\ filter (fun x => negb (user_id x =? u_id (target_of iu user)))
            (coll (snd (beer_delete (target_of iu user) beer_id
                     (snd (log_beer iu user drink_type beer_id current_time
                                    s)))))
     = filter (fun x => negb (user_id x =? u_id (target_of iu user)))
              (coll s).
Proof.
  clear utcoffset. intros Hu Hfresh Hs.
  destruct (log_beer_effect iu user drink_type beer_id current_time s)
    as (doc & -> & Hid & Hname & Hbeers).
  cbn [snd].
  set (uid := u_id (target_of iu user)) in Hid, Hbeers |- *.
  set (new := mk_beer beer_id current_time (Some drink_type))
    in Hbeers |- *.
  set (old := match find (fun x => user_id x =? uid) (coll s) with
              | Some d => beers d
              | None => []
              end) in Hbeers |- *.
  assert (Hold : existsb (fun b => String.eqb (b_id b) beer_id) old = false).
  { unfold old. destruct (find _ (coll s)) as [d|] eqn:Ef; [|reflexivity].
    apply find_some in Ef. apply (Hfresh d). tauto. }
  assert (Hnew : String.eqb (b_id new) beer_id = true)
    by apply String.eqb_refl.
  assert (Hhas : has_beer beer_id doc = true).
  { unfold has_beer. rewrite Hbeers, existsb_app. cbn [existsb].
    rewrite Hnew. now rewrite orb_true_r. }
  set (s1 := mk_db (replace_first uid doc (coll s)) _).
  assert (Hd1 : find (has_beer beer_id) (coll s1) = Some doc)
    by (now apply find_beer_replace_first).
  destruct (beer_delete_effect (target_of iu user) beer_id s1 doc Hu Hd1 Hid)
    as (b & Hb & ->).
  rewrite Hbeers in Hb. rewrite (find_snoc_fresh _ _ _ Hold Hnew) in Hb.
  injection Hb as <-. cbn [fst snd coll]. split; [reflexivity|].
  assert (Hleft : filter (fun b => negb (String.eqb (b_id b) beer_id))
                         (beers doc) = old).
  { rewrite Hbeers, filter_app. cbn [filter]. rewrite Hnew. cbn [negb].
    rewrite app_nil_r. now apply fresh_filter_id. }
  rewrite Hleft, Hid. split.
  - rewrite find_set_first. unfold s1. cbn [coll].
    rewrite (find_replace_first _ _ _ Hid). cbn [option_map].
    rewrite Hid, Hname. f_equal. unfold old.
    destruct (find (fun x => user_id x =? uid) (coll s)) as [d|] eqn:Ef;
      [|reflexivity].
    destruct (find_some_Forall _ _ _ _ Hs Ef) as (Hcb & Hcc & _).
    rewrite Hcb, Hcc. f_equal.
    apply find_some in Ef. destruct Ef as [_ E]. apply Z.eqb_eq in E.
    now symmetry.
  - rewrite set_first_others. unfold s1. cbn [coll].
    now apply replace_first_others.
Qed.

(** X16. A beer logged for somebody else cannot be deleted by the one
    who logged it: with an id new to the store, the [/beer_delete] of
    the logger is answered with the not-yours reply and writes
    nothing. *)
Theorem logged_for_another_is_not_yours (iu target : discord_user)
  (drink_type : pyval) (beer_id : string) (current_time : Z) (s : db) :
  u_id iu <> u_id target ->
  uuid_parses beer_id = true ->
  (forall x, In x (coll s) -> has_beer beer_id x = false) ->
  fst (beer_delete iu beer_id
         (snd (log_beer iu (Some target) drink_type beer_id current_time s)))
  = NotYourBeer
  /\ coll (snd (beer_delete iu beer_id
              (snd (log_beer iu (Some target) drink_type beer_id
                             current_time s))))
     = coll (snd (log_beer iu (Some target) drink_type beer_id
                           current_time s)).
Proof.
  intros Hother Hu Hfresh.
  destruct (log_beer_effect iu (Some target) drink_type beer_id
              current_time s) as (doc & -> & Hid & _ & Hbeers).
  cbn [snd target_of] in *.
  assert (Hhas : has_beer beer_id doc = true).
  { unfold has_beer. rewrite Hbeers, existsb_app. cbn [existsb b_id].
    rewrite String.eqb_refl. now rewrite orb_true_r. }
  unfold beer_delete, bind, find_one_beer, ret, called. rewrite Hu.
  cbn [negb coll calls].
  rewrite (find_beer_replace_first _ _ _ _ Hfresh Hhas), Hid.
  replace (u_id target =? u_id iu) with false
    by (symmetry; apply Z.eqb_neq; congruence).
  now cbn.
Qed.

(** X17. The four query commands never write: each leaves the
    documents as they are and makes one call to the store, a lookup of
    the user or, for the board, the scan. *)
Theorem queries_do_not_write (iu : discord_user)
  (user : option discord_user) (limit page : Z)
  (period : option period_lit) (drink_type : drink_filter) (clock : Z)
  (s : db) :
  snd (my_beers iu limit page drink_type s)
  = mk_db (coll s) (calls s ++ [CallFindOneUser (u_id iu)])
  /\ snd (beer_stats iu user period drink_type clock s)
     = mk_db (coll s)
             (calls s ++ [CallFindOneUser (u_id (target_of iu user))])
  /\ snd (beer_last iu user drink_type s)
     = mk_db (coll s)
             (calls s ++ [CallFindOneUser (u_id (target_of iu user))])
  /\ snd (beer_leaderboard period limit drink_type clock s)
     = mk_db (coll s) (calls s ++ [CallFindAll]).
Proof.
  unfold my_beers, beer_stats, beer_last, beer_leaderboard, bind,
    find_one_user, find_all, ret, called.
  repeat split.
  - destruct (find _ (coll s)) as [d|]; [|reflexivity].
    destruct (beers d); [reflexivity|]. cbn. now destruct (page >? _).
  - destruct (find _ (coll s)) as [d|]; [|reflexivity].
    destruct (beers d); [reflexivity|]. now destruct period.
  - destruct (find _ (coll s)) as [d|]; [|reflexivity].
    destruct (beers d); [reflexivity|]. now destruct (py_last _).
  - cbn. destruct (coll s) as [|d users] eqn:Ec; [reflexivity|].
    destruct (leaderboard_rows _ _ _ _); [|reflexivity].
    now destruct (py_slice_to _ _).
Qed.

(** X19. The age [/beer_last] words is taken between the two Prague
    clock readings: it is the age of the elapsed time plus the change of
    the UTC offset in between.  So it is the age of the elapsed time
    when the offset is the same at both instants, and an entry less than
    61 minutes old reads "just now" when the offset has dropped by an
    hour since it was logged. *)
Theorem beer_last_age_elapsed (iu : discord_user)
  (user : option discord_user) (drink_type : drink_filter) (clock : Z)
  (s : db) (d : user_doc) (earlier : list beer) (last_beer : beer) :
  find (fun x => user_id x =? u_id (target_of iu user)) (coll s) = Some d ->
  filter_drink_type drink_type (beers d) = earlier ++ [last_beer] ->
  beer_last_time_str clock (fst (beer_last iu user drink_type s))
  = Some (time_str (clock - b_timestamp last_beer
                    + (utcoffset clock - utcoffset (b_timestamp last_beer))))
  /\ (utcoffset (b_timestamp last_beer) = utcoffset clock ->
      beer_last_time_str clock (fst (beer_last iu user drink_type s))
      = Some (time_str (clock - b_timestamp last_beer)))
  /\ (utcoffset (b_timestamp last_beer) - utcoffset clock
      = timedelta_hours 1 ->
      clock - b_timestamp last_beer < timedelta_minutes 61 ->
      beer_last_time_str clock (fst (beer_last iu user drink_type s))
      = Some "just now"%string).
Proof.
  intros Hd Hf.
  assert (Hreply : fst (beer_last iu user drink_type s)
                   = LastBeer last_beer
                              (ts_to_prague_time (b_timestamp last_beer))).
  { unfold beer_last, bind, find_one_user, ret. cbn [fst]. rewrite Hd. cbn.
    destruct (beers d) as [|b bs] eqn:Eb.
    - rewrite filter_drink_type_nil in Hf. now destruct earlier.
    - now rewrite Hf, py_last_snoc. }
  rewrite Hreply. cbn [beer_last_time_str].
  unfold now_prague, ts_to_prague_time.
  split; [|split].
  - do 2 f_equal. lia.
  - intros ->. do 2 f_equal. lia.
  - intros Hdrop Hyoung. f_equal. unfold time_str, time_age.
    replace (_ <? timedelta_minutes 1) with true; [reflexivity|].
    symmetry. apply Z.ltb_lt.
    unfold timedelta_minutes, timedelta_hours in *. lia.
Qed.

(** X20. A document that lacks a counter gets it started at 1 by the
    first [/beer] of that type, whatever entries it holds: the reply
    announces 1, and the counter is 1 while the entries of the type are
    one more than before. *)
Theorem log_beer_missing_counter (iu : discord_user)
  (user : option discord_user) (beer_id : string) (current_time : Z)
  (s : db) (d : user_doc) :
  find (fun x => user_id x =? u_id (target_of iu user)) (coll s) = Some d ->
  (total_beers d = None ->
   fst (log_beer iu user (PyStr "beer") beer_id current_time s) = SaidBeers 1
   /\ exists doc,
       find (fun x => user_id x =? u_id (target_of iu user))
            (coll (snd (log_beer iu user (PyStr "beer") beer_id
                                 current_time s)))
       = Some doc
       /\ total_beers doc = Some 1
       /\ len (filter is_beer (beers doc))
          = len (filter is_beer (beers d)) + 1)
  /\ (total_ciders d = None ->
      fst (log_beer iu user (PyStr "cider") beer_id current_time s)
      = SaidCiders 1
      /\ exists doc,
          find (fun x => user_id x =? u_id (target_of iu user))
               (coll (snd (log_beer iu user (PyStr "cider") beer_id
                                    current_time s)))
          = Some doc
          /\ total_ciders doc = Some 1
          /\ len (filter is_cider (beers doc))
             = len (filter is_cider (beers d)) + 1).
Proof.
  intros Hd.
  assert (Hu : user_id d = u_id (target_of iu user)).
  { apply find_some in Hd. now apply Z.eqb_eq. }
  split; intros Hmiss;
    unfold log_beer, bind, find_one_user, replace_one, ret;
    cbn [fst snd coll called]; rewrite Hd; cbn [py_eq_str];
    rewrite Hmiss; cbn; (split; [reflexivity|]);
    eexists; (split; [apply find_replace_first; exact Hu|]);
    cbn [total_beers total_ciders beers]; (split; [reflexivity|]);
    rewrite filter_app, len_app; reflexivity.
Qed.

Lemma filter_none {A : Type} (f : A -> bool) (l : list A) :
  (forall x, In x l -> f x = false) -> filter f l = [].
Proof.
  induction l as [|y l IH]; intros H; [reflexivity|]. cbn [filter].
  rewrite (H y (or_introl eq_refl)). apply IH.
  intros x Hx. apply H. now right.
Qed.

(** X21. With a limit of at least 1, [/beer_leaderboard] answers
    "no beers have been logged yet" exactly when the collection has no
    document, and "no beers logged in the last ..." exactly when it has
    documents and none of them has entries and a positive count. *)
Theorem beer_leaderboard_empty_replies (period : option period_lit)
  (limit : Z) (drink_type : drink_filter) (clock : Z) (s : db) :
  1 <= limit ->
  (fst (beer_leaderboard period limit drink_type clock s) = NoBeersLogged
   <-> coll s = [])
  /\ (fst (beer_leaderboard period limit drink_type clock s) = NoBeersInPeriod
      <-> coll s <> []
          /\ forall d, In d (coll s) ->
                       ranked period drink_type clock d = false).
Proof.
  intros Hlimit. rewrite beer_leaderboard_reply.
  destruct (coll s) as [|d0 users] eqn:Ec.
  { split; [tauto|]. split; [discriminate|]. now intros [H _]. }
  set (rows := map (row_of period drink_type clock)
                   (filter (ranked period drink_type clock) (d0 :: users))).
  assert (Hnone : (forall d, In d (d0 :: users) ->
                             ranked period drink_type clock d = false)
                  <-> rows = []).
  { unfold rows. split.
    - intros H. now rewrite (filter_none _ _ H).
    - intros H x Hx.
      destruct (ranked period drink_type clock x) eqn:Er; [|reflexivity].
      exfalso. apply map_eq_nil in H.
      assert (Hin : In x (filter (ranked period drink_type clock)
                                 (d0 :: users)))
        by (apply filter_In; now split).
      rewrite H in Hin. contradiction. }
  destruct (leaderboard_rows_cases period drink_type clock (d0 :: users))
    as [(Hn & x & Hx & Hr & _) | (Hs & _)].
  - rewrite Hn. split; [split; discriminate|]. split; [discriminate|].
    intros [_ H]. rewrite (H x Hx) in Hr. discriminate.
  - rewrite Hs. fold rows. rewrite py_slice_to_firstn by lia.
    assert (Hfirst : firstn (Z.to_nat limit) (sorted_reverse r_count rows)
                     = [] <-> rows = []).
    { split.
      - intros H. destruct rows as [|r rs]; [reflexivity|]. exfalso.
        pose proof (Permutation_length (sorted_reverse_perm r_count (r :: rs)))
          as Hlen.
        destruct (sorted_reverse r_count (r :: rs)) as [|a l];
          [discriminate|].
        destruct (Z.to_nat limit) eqn:El; [lia|discriminate].
      - intros ->. now destruct (Z.to_nat limit). }
    destruct (firstn (Z.to_nat limit) (sorted_reverse r_count rows))
      as [|r board] eqn:Ef.
    + split; [split; discriminate|]. split; [|reflexivity].
      intros _. split; [discriminate|]. apply Hnone. now apply Hfirst.
    + split; [split; discriminate|]. split; [discriminate|].
      intros [_ H]. apply Hnone in H. apply Hfirst in H. discriminate.
Qed.

End Cog.

(** ** The statements on the sample stores *)

(** The counters along [sample_run], started from the empty store. *)
Lemma counters_match_after_each_op_witness :
  store_counters_match no_db
  /\ Forall logs_beer_or_cider sample_run
  /\ Forall store_counters_match
            (states_after canonical_uuid sample_run no_db).
Proof.
  assert (H0 : store_counters_match no_db) by constructor.
  assert (H1 : Forall logs_beer_or_cider sample_run).
  { repeat constructor; simpl; (now left) || (now right). }
  split; [exact H0|]. split; [exact H1|].
  exact (counters_match_after_each_op canonical_uuid sample_run no_db H0 H1).
Defined.

(** Bob asks to delete the beer of Ann. *)
Lemma beer_delete_forbidden_witness :
  fst (beer_delete canonical_uuid bob (sample_uuid 1) evening_db)
  = NotYourBeer
  /\ coll (snd (beer_delete canonical_uuid bob (sample_uuid 1) evening_db))
     = coll evening_db
  /\ calls (snd (beer_delete canonical_uuid bob (sample_uuid 1) evening_db))
     = calls evening_db ++ [CallFindOneBeer (sample_uuid 1)].
Proof.
  apply (beer_delete_forbidden canonical_uuid bob (sample_uuid 1) evening_db).
  - reflexivity.
  - exists (mk_user_doc 1 "ann" [evening_beer] (Some 1) (Some 0)).
    split; [now left|reflexivity].
  - intros d [<- | []] _. discriminate.
Defined.

(** Ann deletes her beer twice. *)
Lemma beer_delete_twice_witness :
  beer_delete canonical_uuid ann (sample_uuid 1) evening_db
  = (Deleted evening_beer,
     snd (beer_delete canonical_uuid ann (sample_uuid 1) evening_db))
  /\ fst (beer_delete canonical_uuid ann (sample_uuid 1)
            (snd (beer_delete canonical_uuid ann (sample_uuid 1) evening_db)))
     = NoBeerFound
  /\ coll (snd (beer_delete canonical_uuid ann (sample_uuid 1)
            (snd (beer_delete canonical_uuid ann (sample_uuid 1) evening_db))))
     = coll (snd (beer_delete canonical_uuid ann (sample_uuid 1) evening_db)).
Proof.
  assert (H : beer_delete canonical_uuid ann (sample_uuid 1) evening_db
              = (Deleted evening_beer,
                 snd (beer_delete canonical_uuid ann (sample_uuid 1)
                                  evening_db)))
    by reflexivity.
  split; [exact H|].
  apply (beer_delete_twice canonical_uuid ann (sample_uuid 1) evening_db
           _ evening_beer).
  - simpl. repeat constructor. intros [].
  - intros d1 d2 [<- | []] [<- | []] _ _. reflexivity.
  - exact H.
Defined.

(** A string that is no UUID. *)
Lemma beer_delete_malformed_witness :
  canonical_uuid "not-a-uuid" = false
  /\ beer_delete canonical_uuid ann "not-a-uuid" evening_db
     = (InvalidUUID, evening_db)
  /\ InvalidUUID <> NoBeerFound.
Proof.
  split; [reflexivity|].
  apply (beer_delete_malformed canonical_uuid ann "not-a-uuid" evening_db).
  reflexivity.
Defined.

(** Counterexample to C2: after the clock was set back, the trailing
    entry (9:00) is shown although the 11:00 entry is later. *)
Lemma beer_last_not_latest :
  coll clock_set_back_db
  = [mk_user_doc 1 "ann" [beer_at 1 10; beer_at 2 11; beer_at 3 9]
                 (Some 3) (Some 0)]
  /\ fst (beer_last cet ann None FilterAll clock_set_back_db)
     = LastBeer (beer_at 3 9) (10 * hour_us)
  /\ b_timestamp (beer_at 3 9) < b_timestamp (beer_at 2 11).
Proof. split; [|split]; reflexivity. Qed.

(** A type filter that leaves nothing ends [/beer_last] in the
    [IndexError] of [[][-1]]. *)
Example beer_last_filtered_empty :
  fst (beer_last cet ann None FilterCider clock_set_back_db) = LastIndexError.
Proof. reflexivity. Qed.

(** The trailing entry of a list stored in order of time. *)
Lemma beer_last_trailing_witness :
  fst (beer_last cet ann None FilterAll in_order_db)
  = LastBeer (beer_at 3 11) (12 * hour_us)
  /\ Forall (fun b => b_timestamp b <= b_timestamp (beer_at 3 11))
            [beer_at 1 9; beer_at 2 10; beer_at 3 11].
Proof.
  destruct (proj2 (beer_last_trailing cet) ann None FilterAll in_order_db
              (mk_user_doc 1 "ann" [beer_at 1 9; beer_at 2 10; beer_at 3 11]
                           (Some 3) (Some 0))
              [beer_at 1 9; beer_at 2 10] (beer_at 3 11)
              eq_refl eq_refl) as [Hreply Hmax].
  split; [exact Hreply|].
  apply Hmax. repeat constructor; simpl; vm_compute; discriminate.
Defined.

(** Counterexample to C3: at noon, a beer of 20:00 the evening before is
    within the last 24 hours and counted by [/beer_stats], and is not
    counted by [/beer_leaderboard], whose day starts at midnight. *)
Lemma leaderboard_day_not_24h :
  coll evening_db = [mk_user_doc 1 "ann" [evening_beer] (Some 1) (Some 0)]
  /\ not_before cet (now_prague cet clock_noon - period_span Day)
                evening_beer = true
  /\ fst (beer_stats cet ann None (Some Day) FilterAll clock_noon evening_db)
     = Stats 1
  /\ fst (beer_leaderboard cet (Some Day) 10 FilterAll clock_noon evening_db)
     = NoBeersInPeriod.
Proof. split; [|split; [|split]]; reflexivity. Qed.

(** The day count of [/beer_stats] on the evening beer. *)
Lemma period_cutoffs_witness :
  fst (beer_stats cet ann None (Some Day) FilterAll clock_noon evening_db)
  = Stats (len (filter (not_before cet (now_prague cet clock_noon
                                        - period_span Day))
                       [evening_beer])).
Proof.
  apply (proj1 (period_cutoffs cet) ann None Day FilterAll clock_noon
               evening_db
               (mk_user_doc 1 "ann" [evening_beer] (Some 1) (Some 0))).
  - reflexivity.
  - discriminate.
Defined.

(** Counterexample to C4: ann has one beer and asks for page 1 of her
    ciders. *)
Lemma my_beers_empty_selection_refused :
  fst (my_beers ann 10 1 FilterCider evening_db) = PageDoesNotExist 1 0
  /\ fst (my_beers ann 10 1 FilterCider evening_db) <> BeerPage [] 1 1 0.
Proof. split; [reflexivity|discriminate]. Qed.

(** The pages of that selection. *)
Lemma my_beers_pages_witness :
  exists total_pages,
    (total_pages - 1) * 10 < len (filter_drink_type FilterCider [evening_beer])
      <= total_pages * 10
    /\ (len (filter_drink_type FilterCider [evening_beer]) = 0 ->
        total_pages = 0)
    /\ ((total_pages < 1
         /\ fst (my_beers ann 10 1 FilterCider evening_db)
            = PageDoesNotExist 1 total_pages)
        \/ (1 <= total_pages
            /\ exists paginated_beers,
                fst (my_beers ann 10 1 FilterCider evening_db)
                = BeerPage paginated_beers 1 total_pages
                    (len (filter_drink_type FilterCider [evening_beer]))
                /\ len paginated_beers <= 10)).
Proof.
  apply (my_beers_pages ann 10 1 FilterCider evening_db
           (mk_user_doc 1 "ann" [evening_beer] (Some 1) (Some 0))).
  - lia.
  - lia.
  - reflexivity.
  - discriminate.
Defined.

(** Counterexample to C9: of two beers with the same timestamp the one
    stored first is listed first. *)
Lemma my_beers_tie_oldest_first :
  coll tie_db
  = [mk_user_doc 1 "ann" [beer_at 1 10; beer_at 2 10] (Some 2) (Some 0)]
  /\ fst (my_beers ann 10 1 FilterAll tie_db)
     = BeerPage [beer_at 1 10; beer_at 2 10] 1 1 2
  /\ fst (my_beers ann 10 1 FilterAll tie_db)
     <> BeerPage [beer_at 2 10; beer_at 1 10] 1 1 2.
Proof. split; [|split]; [reflexivity|reflexivity|discriminate]. Qed.

(** The order of the page on the tie. *)
Lemma my_beers_order_witness :
  exists all_beers,
    Permutation all_beers [beer_at 1 10; beer_at 2 10]
    /\ descending b_timestamp all_beers
    /\ keeps_order_of_ties b_timestamp [beer_at 1 10; beer_at 2 10] all_beers
    /\ (1 <= (len all_beers + 10 - 1) / 10 ->
        fst (my_beers ann 10 1 FilterAll tie_db)
        = BeerPage (py_slice all_beers ((1 - 1) * 10) ((1 - 1) * 10 + 10))
                   1 ((len all_beers + 10 - 1) / 10) (len all_beers)).
Proof.
  apply (my_beers_order ann 10 1 FilterAll tie_db
           (mk_user_doc 1 "ann" [beer_at 1 10; beer_at 2 10]
                        (Some 2) (Some 0))).
  - lia.
  - reflexivity.
  - discriminate.
Defined.

(** Three users with 5, 5 and 3 beers, two places on the board. *)
Lemma beer_leaderboard_ranking_witness :
  fst (beer_leaderboard cet None 2 FilterAll 0 tied_db)
  = Board [mk_row "ann" 5 1 5 0; mk_row "bob" 5 2 5 0]
  /\ exists board,
      Permutation board
        (map (row_of cet None FilterAll 0)
             (filter (ranked cet None FilterAll 0) (coll tied_db)))
      /\ Forall (fun r => 0 < r_count r) board
      /\ descending r_count board
      /\ fst (beer_leaderboard cet None 2 FilterAll 0 tied_db)
         = match firstn 2 board with
           | [] => NoBeersInPeriod
           | r :: rows => Board (r :: rows)
           end.
Proof.
  split; [reflexivity|].
  destruct (beer_leaderboard_ranking cet None 2 FilterAll 0 tied_db)
    as (board & Hperm & _ & Hpos & Hdesc & _ & _ & Hreply).
  - discriminate.
  - lia.
  - repeat constructor; discriminate.
  - exists board. repeat split; assumption.
Defined.

(** Counterexample to C10: ann's document has an entry and neither
    counter, and the board is made all the same. *)
Lemma beer_leaderboard_legacy_skipped :
  In (mk_user_doc 1 "ann" [mk_beer (sample_uuid 1) (10 * hour_us) None]
                  None None)
     (coll legacy_db)
  /\ fst (beer_leaderboard cet None 10 FilterAll 0 legacy_db)
     = Board [mk_row "bob" 1 2 1 0].
Proof. split; [now left|reflexivity]. Qed.

(** A document with ciders counted and no [total_beers] stops the
    command. *)
Lemma beer_leaderboard_key_error_witness :
  fst (beer_leaderboard cet None 10 FilterAll 0 half_legacy_db)
  = BoardKeyError.
Proof.
  apply (proj1 (beer_leaderboard_key_error cet None 10 FilterAll 0
                  half_legacy_db)).
  eexists. split; [now left|]. split; [discriminate|].
  split; [reflexivity|now left].
Defined.

(** ** The further properties on the sample stores *)

(** Ninety seconds read as one minute. *)
Lemma time_age_counts_witness :
  exists n u,
    time_age 90000000 = Ago n u
    /\ 1 <= n
    /\ match u with
       | AMinute => n <= 59
       | AHour => n <= 23
       | ADay => n <= 29
       | AMonth => n <= 12
       | AYear => True
       end.
Proof.
  apply (proj2 time_age_counts 90000000). vm_compute. discriminate.
Defined.

(** Ninety seconds against two days. *)
Lemma time_age_monotone_witness :
  age_le (time_age 90000000) (time_age (2 * day_us)).
Proof.
  apply (time_age_monotone 90000000 (2 * day_us)). vm_compute. discriminate.
Defined.

(** The five beers of ann on pages of two. *)
Lemma my_beers_pages_cover_witness :
  flat_map (fun p => page_items (fst (my_beers ann 2 (Z.of_nat p)
                                        FilterAll tied_db)))
           (seq 1 (Z.to_nat ((len (filter_drink_type FilterAll
                                     (beers (drinker ann 0 5)))
                              + 2 - 1) / 2)))
  = sorted_reverse b_timestamp
      (filter_drink_type FilterAll (beers (drinker ann 0 5))).
Proof.
  apply (my_beers_pages_cover ann 2 FilterAll tied_db (drinker ann 0 5)).
  - lia.
  - reflexivity.
  - discriminate.
Defined.

(** The third of these pages holds the one beer that is left. *)
Lemma my_beers_page_size_witness :
  len (page_items (fst (my_beers ann 2 3 FilterAll tied_db)))
  = Z.min 2 (len (filter_drink_type FilterAll (beers (drinker ann 0 5)))
             - (3 - 1) * 2)
  /\ 1 <= len (page_items (fst (my_beers ann 2 3 FilterAll tied_db))).
Proof.
  apply (my_beers_page_size ann 2 3 FilterAll tied_db (drinker ann 0 5)).
  - lia.
  - lia.
  - reflexivity.
  - discriminate.
  - vm_compute. discriminate.
Defined.

(** The footer of the second of these pages leads to the first and to
    the third. *)
Lemma my_beers_footer_leads_on_witness :
  exists e,
    my_beers_embed cet (fst (my_beers ann 2 2 FilterAll tied_db)) = Some e
    /\ (In (Next (2 + 1)) (e_footer e)
        <-> 2 * 2 < len (filter_drink_type FilterAll
                           (beers (drinker ann 0 5))))
    /\ (In (Previous (2 - 1)) (e_footer e) <-> 1 < 2)
    /\ (forall p, In (Next p) (e_footer e) \/ In (Previous p) (e_footer e) ->
                  exists e',
                    my_beers_embed cet
                      (fst (my_beers ann 2 p FilterAll tied_db)) = Some e'
                    /\ e_page e' = p).
Proof.
  eexists. split; [reflexivity|].
  apply (my_beers_footer_leads_on cet ann 2 2 FilterAll tied_db
           (drinker ann 0 5)).
  - lia.
  - lia.
  - reflexivity.
  - discriminate.
  - reflexivity.
Defined.

(** The page of ciders of a user with two ciders. *)
Lemma my_beers_emoji_follows_filter_witness :
  exists e,
    my_beers_embed cet (fst (my_beers ann 10 1 FilterCider half_legacy_db))
    = Some e
    /\ List.length (e_fields e) = 2%nat
    /\ Forall (fun f => f_emoji f = "🍎"%string) (e_fields e).
Proof.
  eexists. split; [reflexivity|]. split; [reflexivity|].
  apply (my_beers_emoji_follows_filter cet ann 10 1 FilterCider
           half_legacy_db); reflexivity.
Defined.

(** The all-time count of ann among the three drinkers. *)
Lemma beer_stats_all_time_counts_witness :
  fst (beer_stats cet ann None None FilterAll 0 tied_db)
  = Stats (len (filter_drink_type FilterAll (beers (drinker ann 0 5)))).
Proof.
  apply (beer_stats_all_time_counts cet ann None FilterAll 0 tied_db
           (drinker ann 0 5)).
  - reflexivity.
  - discriminate.
  - repeat split.
Defined.

(** The day and the week of the evening beer. *)
Lemma beer_stats_longer_period_counts_more_witness :
  exists c c',
    fst (beer_stats cet ann None (Some Day) FilterAll clock_noon evening_db)
    = Stats c
    /\ fst (beer_stats cet ann None (Some Week) FilterAll clock_noon
                       evening_db)
       = Stats c'
    /\ 0 <= c <= c'.
Proof.
  destruct (beer_stats_longer_period_counts_more cet ann None Day Week
              FilterAll clock_noon evening_db
              (mk_user_doc 1 "ann" [evening_beer] (Some 1) (Some 0)))
    as (c & c' & H1 & H2 & H3 & _).
  - reflexivity.
  - discriminate.
  - vm_compute. discriminate.
  - exists c, c'. now repeat split.
Defined.

(** The row of ann on the board of the three drinkers. *)
Lemma board_agrees_with_stats_witness :
  exists c,
    fst (beer_stats cet (mk_discord_user 1 "ann") None None FilterAll 0
                    tied_db) = Stats c
    /\ 5 <= c
    /\ (@None period_lit <> Some Day -> 5 = c).
Proof.
  apply (board_agrees_with_stats cet None 2 FilterAll 0 tied_db
           [mk_row "ann" 5 1 5 0; mk_row "bob" 5 2 5 0]
           (mk_row "ann" 5 1 5 0)).
  - cbn. repeat constructor; cbn; intuition discriminate.
  - reflexivity.
  - now left.
Defined.

(** The board of the three drinkers. *)
Lemma board_no_user_twice_witness :
  NoDup (map r_user_id [mk_row "ann" 5 1 5 0; mk_row "bob" 5 2 5 0])
  /\ len [mk_row "ann" 5 1 5 0; mk_row "bob" 5 2 5 0] <= 2.
Proof.
  apply (board_no_user_twice cet None 2 FilterAll 0 tied_db).
  - cbn. repeat constructor; cbn; intuition discriminate.
  - lia.
  - reflexivity.
Defined.

(** Bob logs a cider after the evening beer of ann. *)
Lemma log_beer_then_last_witness :
  fst (beer_last cet bob None FilterCider
         (snd (log_beer bob None a_cider (sample_uuid 2) clock_noon
                        evening_db)))
  = LastBeer (mk_beer (sample_uuid 2) clock_noon (Some a_cider))
             (ts_to_prague_time cet clock_noon).
Proof.
  apply (log_beer_then_last cet bob None a_cider (sample_uuid 2) clock_noon
           evening_db FilterCider).
  right. right. split; reflexivity.
Defined.

(** Ann logs a second beer. *)
Lemma log_beer_announces_count_witness :
  exists doc,
    find (fun x => user_id x =? u_id (target_of ann None))
         (coll (snd (log_beer ann None a_beer (sample_uuid 2) clock_noon
                              evening_db)))
    = Some doc
    /\ fst (log_beer ann None a_beer (sample_uuid 2) clock_noon evening_db)
       = if py_eq_str a_beer "beer"
         then SaidBeers (len (filter is_beer (beers doc)))
         else SaidCiders (len (filter is_cider (beers doc))).
Proof.
  apply (log_beer_announces_count ann None a_beer (sample_uuid 2) clock_noon
           evening_db).
  - repeat constructor.
  - now left.
Defined.

(** Ann deletes her evening beer. *)
Lemma beer_delete_removes_the_entry_witness :
  exists deleted_beer,
    fst (beer_delete canonical_uuid ann (sample_uuid 1) evening_db)
    = Deleted deleted_beer
    /\ b_id deleted_beer = sample_uuid 1
    /\ find (fun x => user_id x =? u_id ann)
            (coll (snd (beer_delete canonical_uuid ann (sample_uuid 1)
                                    evening_db)))
       = Some (mk_user_doc 1 "ann" [] (Some 0) (Some 0)).
Proof.
  destruct (beer_delete_removes_the_entry canonical_uuid ann (sample_uuid 1)
              evening_db
              (mk_user_doc 1 "ann" [evening_beer] (Some 1) (Some 0)))
    as (b & H1 & H2 & _ & H4 & _).
  - reflexivity.
  - cbn. repeat constructor. intros [].
  - reflexivity.
  - reflexivity.
  - exists b. split; [exact H1|]. split; [exact H2|exact H4].
Defined.

(** Ann logs a second beer and deletes it again. *)
Lemma log_then_delete_restores_witness :
  fst (beer_delete canonical_uuid ann (sample_uuid 2)
         (snd (log_beer ann None a_beer (sample_uuid 2) clock_noon
                        evening_db)))
  = Deleted (mk_beer (sample_uuid 2) clock_noon (Some a_beer))
  /\ find (fun x => user_id x =? u_id ann)
          (coll (snd (beer_delete canonical_uuid ann (sample_uuid 2)
                   (snd (log_beer ann None a_beer (sample_uuid 2) clock_noon
                                  evening_db)))))
     = Some (mk_user_doc 1 "ann" [evening_beer] (Some 1) (Some 0)).
Proof.
  destruct (log_then_delete_restores canonical_uuid ann None a_beer
              (sample_uuid 2) clock_noon evening_db)
    as (H1 & H2 & _).
  - reflexivity.
  - intros x [<- | []]. reflexivity.
  - repeat constructor.
  - split; [exact H1|exact H2].
Defined.

(** Ann logs a beer for bob and tries to delete it. *)
Lemma logged_for_another_is_not_yours_witness :
  fst (beer_delete canonical_uuid ann (sample_uuid 2)
         (snd (log_beer ann (Some bob) a_beer (sample_uuid 2) clock_noon
                        evening_db)))
  = NotYourBeer.
Proof.
  apply (logged_for_another_is_not_yours canonical_uuid ann bob a_beer
           (sample_uuid 2) clock_noon evening_db).
  - discriminate.
  - reflexivity.
  - intros x [<- | []]. reflexivity.
Defined.

(** The keys along [sample_run], started from the empty store. *)
Lemma well_formed_after_each_op_witness :
  Forall store_well_formed (states_after canonical_uuid sample_run no_db).
Proof.
  apply (well_formed_after_each_op canonical_uuid sample_run no_db).
  - split; [constructor|]. intros ? ? ? [].
  - cbn. repeat split; intros d H;
      repeat (destruct H as [<- | H]; [reflexivity|]); destruct H.
Defined.

(** The last of three beers, two days later. *)
Lemma beer_last_age_elapsed_witness :
  beer_last_time_str cet (11 * hour_us + 2 * day_us)
    (fst (beer_last cet ann None FilterAll in_order_db))
  = Some "2 days ago"%string.
Proof.
  apply (proj1 (proj2 (beer_last_age_elapsed cet ann None FilterAll
                         (11 * hour_us + 2 * day_us) in_order_db
                         (mk_user_doc 1 "ann"
                            [beer_at 1 9; beer_at 2 10; beer_at 3 11]
                            (Some 3) (Some 0))
                         [beer_at 1 9; beer_at 2 10] (beer_at 3 11)
                         eq_refl eq_refl))).
  reflexivity.
Defined.

(** Ann's document from before the counters gets a second beer. *)
Lemma log_beer_missing_counter_witness :
  fst (log_beer ann None (PyStr "beer") (sample_uuid 3) clock_noon legacy_db)
  = SaidBeers 1
  /\ exists doc,
      find (fun x => user_id x =? u_id (target_of ann None))
           (coll (snd (log_beer ann None (PyStr "beer") (sample_uuid 3)
                                clock_noon legacy_db)))
      = Some doc
      /\ total_beers doc = Some 1
      /\ len (filter is_beer (beers doc))
         = len (filter is_beer
                  [mk_beer (sample_uuid 1) (10 * hour_us) None]) + 1.
Proof.
  apply (proj1 (log_beer_missing_counter ann None (sample_uuid 3) clock_noon
                  legacy_db
                  (mk_user_doc 1 "ann"
                     [mk_beer (sample_uuid 1) (10 * hour_us) None]
                     None None)
                  eq_refl)).
  reflexivity.
Defined.

(** The evening beer is too old for the day of the board. *)
Lemma beer_leaderboard_empty_replies_witness :
  fst (beer_leaderboard cet (Some Day) 10 FilterAll clock_noon evening_db)
  = NoBeersInPeriod.
Proof.
  apply (proj2 (beer_leaderboard_empty_replies cet (Some Day) 10 FilterAll
                  clock_noon evening_db ltac:(lia))).
  split; [discriminate|]. intros d [<- | []]. reflexivity.
Defined.
